(** * SpinlabSC: the slow-control data model and its repository

    A shallow embedding of [SpinlabSC.py].  Python objects are values of one
    inductive type (the language is dynamically typed, and the constructors
    of the model classes test the class of their arguments at run time);
    exceptions are an explicit result type; the MySQL store is a record of
    typed tables, and a query is the list of its conditions.

    Conventions of the embedding:
    - a [string] is a sequence of characters, one [ascii] per character;
    - a timestamp (a [datetime]) is an integer;
    - a measurement (a Python [float]) is read as a real number: the
      statistics of a record set are statements about the formulas, not
      about rounding;
    - the store compares text exactly and assigns identifiers by
      auto-increment, starting from 1;
    - [print] calls are not modelled. *)

From Stdlib Require Import List String Ascii ZArith Bool Lia.
From Stdlib Require Import Permutation Sorted.
From Stdlib Require Import Reals Lra.
Import ListNotations.
Local Open Scope string_scope.
Local Open Scope Z_scope.

(** ** Exceptions and results *)

Inductive exn : Type :=
| ModelException (msg : string)
| DatabaseException (msg : string)
| ValueError
| IndexError
| AttributeError
| ZeroDivisionError
| MySQLError.

Inductive res (A : Type) : Type :=
| Ok (a : A)
| Raise (e : exn).
Arguments Ok {A} a.
Arguments Raise {A} e.

Definition bind {A B : Type} (m : res A) (k : A -> res B) : res B :=
  match m with
  | Ok a => k a
  | Raise e => Raise e
  end.

Declare Scope py_scope.
Delimit Scope py_scope with py.
Notation "x <- m ;; k" := (bind m (fun x => k))
  (at level 100, m at next level, right associativity) : py_scope.
Notation "'check' b 'else_raise' e ;; k" :=
  (if b then k else Raise e)
  (at level 100, b at next level, e at next level, right associativity) : py_scope.
Local Open Scope py_scope.

Definition is_ModelException {A : Type} (r : res A) : Prop :=
  exists msg, r = Raise (ModelException msg).

Definition is_DatabaseException {A : Type} (r : res A) : Prop :=
  exists msg, r = Raise (DatabaseException msg).

(** ** Text helpers: splitting at dots, [Sep] *)

Definition dot : ascii := "."%char.

(** [split_dot s] is the Python [s.split] at dots: never empty, and no
    component holds a dot. *)
Fixpoint split_dot (s : string) : list string :=
  match s with
  | EmptyString => [EmptyString]
  | String c rest =>
      if Ascii.eqb c dot then EmptyString :: split_dot rest
      else match split_dot rest with
           | [] => [String c EmptyString]
           | w :: ws => String c w :: ws
           end
  end.

(** [Sep]: the arguments joined by dots. *)
Fixpoint Sep (args : list string) : string :=
  match args with
  | [] => EmptyString
  | [a] => a
  | a :: rest => a ++ "." ++ Sep rest
  end.

Fixpoint no_dot (s : string) : bool :=
  match s with
  | EmptyString => true
  | String c rest => negb (Ascii.eqb c dot) && no_dot rest
  end.

(** ** Python values *)

Inductive class : Type :=
| Owner | Project | System | Manufacturer | Device | Units | Sensor.

(** The objects the library passes around.  The parent, manufacturer and
    units attributes hold whatever the constructor was given. *)
Inductive value : Type :=
| VNone
| VStr (s : string)
| VInt (n : Z)
| VOwner (name desc : string) (ID DTG : option Z)
| VProject (name desc : string) (owner : value) (ID DTG : option Z)
| VSystem (name desc : string) (project : value) (ID DTG : option Z)
| VManufacturer (name desc URL : string) (ID DTG : option Z)
| VDevice (name desc : string) (system : value) (URL : string) (mfg : value)
          (ID DTG : option Z)
| VUnits (short long desc : string) (ID : option Z)
| VSensor (name desc : string) (device units : value) (ID DTG : option Z).

(** Truth value of an object: [None], the empty string and [0] are false; the model
    classes define neither [__bool__] nor [__len__], so their instances
    are true. *)
Definition truthy (v : value) : bool :=
  match v with
  | VNone => false
  | VStr s => negb (s =? "")%string
  | VInt n => negb (n =? 0)
  | _ => true
  end.

Definition class_of (v : value) : option class :=
  match v with
  | VOwner _ _ _ _ => Some Owner
  | VProject _ _ _ _ _ => Some Project
  | VSystem _ _ _ _ _ => Some System
  | VManufacturer _ _ _ _ _ => Some Manufacturer
  | VDevice _ _ _ _ _ _ _ => Some Device
  | VUnits _ _ _ _ => Some Units
  | VSensor _ _ _ _ _ _ => Some Sensor
  | _ => None
  end.

Definition class_eqb (a b : class) : bool :=
  match a, b with
  | Owner, Owner | Project, Project | System, System
  | Manufacturer, Manufacturer | Device, Device | Units, Units
  | Sensor, Sensor => true
  | _, _ => false
  end.

(** [isinstance(v, c)]: no model class derives from another one. *)
Definition isinstance (v : value) (c : class) : bool :=
  match class_of v with
  | Some c' => class_eqb c' c
  | None => false
  end.

(** [v.ID] *)
Definition attr_ID (v : value) : res (option Z) :=
  match v with
  | VOwner _ _ ID _ | VProject _ _ _ ID _ | VSystem _ _ _ ID _
  | VManufacturer _ _ _ ID _ | VDevice _ _ _ _ _ ID _ | VUnits _ _ _ ID
  | VSensor _ _ _ _ ID _ => Ok ID
  | _ => Raise AttributeError
  end.

(** ** The model classes *)

Definition len (s : string) : Z := Z.of_nat (String.length s).

(** [Group.__init__]: the checks every group shares. *)
Definition Group_init (name desc : string) : res unit :=
  check negb ((name =? "")%string || (desc =? "")%string)
    else_raise ModelException "All groups must have a valid name and desc" ;;
  check negb (12 <? len name)
    else_raise ModelException "Name of group exceeds 12 char max" ;;
  check negb (255 <? len desc)
    else_raise ModelException "Description of group exceeds 255 char max" ;;
  Ok tt.

Definition Owner_init (name desc : string) (ID DTG : option Z) : res value :=
  _ <- Group_init name desc ;;
  Ok (VOwner name desc ID DTG).

Definition Project_init (name desc : string) (owner : value)
    (ID DTG : option Z) : res value :=
  check truthy owner
    else_raise ModelException "Projects require a valid owner" ;;
  check isinstance owner Owner
    else_raise ModelException "Projects must belong to an owner" ;;
  _ <- Group_init name desc ;;
  Ok (VProject name desc owner ID DTG).

Definition System_init (name desc : string) (project : value)
    (ID DTG : option Z) : res value :=
  check truthy project
    else_raise ModelException "Systems require a valid project" ;;
  check isinstance project Project
    else_raise ModelException "Systems must belong to a project" ;;
  _ <- Group_init name desc ;;
  Ok (VSystem name desc project ID DTG).

Definition Manufacturer_init (name desc URL : string) (ID DTG : option Z)
    : res value :=
  check negb (URL =? "")%string
    else_raise ModelException "Manufacturer require a valid URL" ;;
  check negb (255 <? len URL)
    else_raise ModelException "URL exceeds 255 char max" ;;
  _ <- Group_init name desc ;;
  Ok (VManufacturer name desc URL ID DTG).

Definition Device_init (name desc : string) (system : value) (URL : string)
    (mfg : value) (ID DTG : option Z) : res value :=
  check truthy system
    else_raise ModelException "Devices require a valid system" ;;
  check isinstance system System
    else_raise ModelException "Devices must belong to a system" ;;
  check negb (URL =? "")%string
    else_raise ModelException "Devices require a valid docs URL" ;;
  check negb (255 <? len URL)
    else_raise ModelException "URL exceeds 255 char max" ;;
  check truthy mfg
    else_raise ModelException "Devices require a vailid manufacturer" ;;
  _ <- Group_init name desc ;;
  Ok (VDevice name desc system URL mfg ID DTG).

Definition Units_init (short long desc : string) (ID : option Z) : res value :=
  check negb ((short =? "")%string || (long =? "")%string
              || (desc =? "")%string)
    else_raise ModelException
      "Description and short/long forms of units must be provided" ;;
  check negb (25 <? len short)
    else_raise ModelException "Short name of units exceeds 25 char max" ;;
  check negb (255 <? len long)
    else_raise ModelException "Long name of units exceeds 255 char max" ;;
  check negb (255 <? len desc)
    else_raise ModelException "Description of units exceeds 255 char max" ;;
  Ok (VUnits short long desc ID).

Definition Sensor_init (name desc : string) (device units : value)
    (ID DTG : option Z) : res value :=
  check truthy device
    else_raise ModelException "Sensors require a valid device" ;;
  check isinstance device Device
    else_raise ModelException "sensors must belong to a device" ;;
  check truthy units
    else_raise ModelException "Sensors require valid units" ;;
  _ <- Group_init name desc ;;
  Ok (VSensor name desc device units ID DTG).

(** [Group.Nomenclature]: the parent's nomenclature, a dot, the name.  The
    parent of an owner and of a manufacturer is [None]. *)
Fixpoint Nomenclature (v : value) : res string :=
  let nom (name : string) (parent : res string) (has_parent : bool) :=
    if has_parent then (p <- parent ;; Ok (p ++ "." ++ name)) else Ok name in
  match v with
  | VOwner name _ _ _ => Ok name
  | VManufacturer name _ _ _ _ => Ok name
  | VProject name _ parent _ _ => nom name (Nomenclature parent) (truthy parent)
  | VSystem name _ parent _ _ => nom name (Nomenclature parent) (truthy parent)
  | VDevice name _ parent _ _ _ _ =>
      nom name (Nomenclature parent) (truthy parent)
  | VSensor name _ parent _ _ _ =>
      nom name (Nomenclature parent) (truthy parent)
  | _ => Raise AttributeError
  end.

(** ** The store

    One table per entity.  Each row carries the columns the library reads;
    [xID] is the auto-increment key of the table and [xDTG] the timestamp
    the server put on the row. *)

Record OwnerRow := mkOwnerRow
  { ownerName : string; ownerDesc : string; ownerID : Z; ownerDTG : Z }.

Record ProjRow := mkProjRow
  { projName : string; projDesc : string; projID : Z; projDTG : Z;
    proj_ownerID : Z }.

Record SysRow := mkSysRow
  { sysName : string; sysDesc : string; sysID : Z; sysDTG : Z;
    sys_projID : Z }.

Record MfgRow := mkMfgRow
  { mfgName : string; mfgDesc : string; mfgURL : string; mfgID : Z;
    mfgDTG : Z }.

Record DevRow := mkDevRow
  { devName : string; devDesc : string; dev_sysID : Z; devURL : string;
    dev_mfgID : Z; devID : Z; devDTG : Z }.

Record UnitRow := mkUnitRow
  { unitShort : string; unitLong : string; unitDesc : string; unitID : Z }.

Record SenRow := mkSenRow
  { senName : string; senDesc : string; sen_devID : Z; sen_unitID : Z;
    senID : Z; senDTG : Z }.

Record RecRow := mkRecRow
  { recData : R; recError : R; recDTG : Z; recID : Z; rec_senID : Z }.

(** The [Database] object: the development flag, the tables behind the
    connection and the server's clock. *)
Record Database := mkDatabase
  { devmode : bool;
    tOwners : list OwnerRow;
    tProjects : list ProjRow;
    tSystems : list SysRow;
    tManufacturers : list MfgRow;
    tDevices : list DevRow;
    tUnits : list UnitRow;
    tSensors : list SenRow;
    tRecords : list RecRow;
    tPlayground : list RecRow;
    clock : Z }.

Definition empty_db (dev : bool) (now : Z) : Database :=
  mkDatabase dev [] [] [] [] [] [] [] [] [] now.

(** [self.recTable]: measurements go to the playground in development. *)
Definition recTable (db : Database) : list RecRow :=
  if devmode db then tPlayground db else tRecords db.

(** *** Conditions: the macros [EQ] ... [InRange] *)

Inductive sqlval : Type :=
| SqlInt (z : Z)
| SqlStr (s : string)
| SqlTime (t : Z).

Inductive comparator : Type :=
| CmpEQ | CmpNEQ | CmpLT | CmpLE | CmpGT | CmpGE | CmpBETWEEN.

Record condition := mkCond { comp : comparator; val : list sqlval }.

Definition EQ (v : sqlval) : condition := mkCond CmpEQ [v].
Definition NEQ (v : sqlval) : condition := mkCond CmpNEQ [v].
Definition LT (v : sqlval) : condition := mkCond CmpLT [v].
Definition LE (v : sqlval) : condition := mkCond CmpLE [v].
Definition GT (v : sqlval) : condition := mkCond CmpGT [v].
Definition GE (v : sqlval) : condition := mkCond CmpGE [v].
Definition InRange (low high : sqlval) : condition :=
  mkCond CmpBETWEEN [low; high].

(** [Enquote] makes a text literal, [EnDate] a timestamp. *)
Definition Enquote (s : string) : sqlval := SqlStr s.
Definition EnDate (date : Z) : sqlval := SqlTime date.

(** How the server compares two values of one type. *)
Definition sql_compare (a b : sqlval) : option comparison :=
  match a, b with
  | SqlInt x, SqlInt y => Some (x ?= y)
  | SqlTime x, SqlTime y => Some (x ?= y)
  | SqlStr x, SqlStr y => Some (String.compare x y)
  | _, _ => None
  end.

Definition sql_le (a b : sqlval) : bool :=
  match sql_compare a b with
  | Some Lt | Some Eq => true
  | _ => false
  end.

Definition sql_lt (a b : sqlval) : bool :=
  match sql_compare a b with
  | Some Lt => true
  | _ => false
  end.

Definition sql_eq (a b : sqlval) : bool :=
  match sql_compare a b with
  | Some Eq => true
  | _ => false
  end.

(** [holds c x]: the column value [x] satisfies [c]. *)
Definition holds (c : condition) (x : sqlval) : bool :=
  match comp c, val c with
  | CmpEQ, [v] => sql_eq x v
  | CmpNEQ, [v] => negb (sql_eq x v)
  | CmpLT, [v] => sql_lt x v
  | CmpLE, [v] => sql_le x v
  | CmpGT, [v] => sql_lt v x
  | CmpGE, [v] => sql_le v x
  | CmpBETWEEN, [low; high] => sql_le low x && sql_le x high
  | _, _ => false
  end.

Section Select.
Context {Row : Type}.

Definition int_col (f : Row -> Z) (r : Row) : sqlval := SqlInt (f r).
Definition str_col (f : Row -> string) (r : Row) : sqlval := SqlStr (f r).
Definition time_col (f : Row -> Z) (r : Row) : sqlval := SqlTime (f r).

  (** [ORDER BY key ASC], as a stable insertion sort. *)
Fixpoint insert_by (key : Row -> Z) (r : Row) (l : list Row) : list Row :=
    match l with
    | [] => [r]
    | x :: xs => if key r <=? key x then r :: l else x :: insert_by key r xs
    end.

Definition order_by (key : Row -> Z) (l : list Row) : list Row :=
    fold_right (insert_by key) [] l.

Definition where_ (conds : list ((Row -> sqlval) * condition)) (r : Row)
      : bool :=
    forallb (fun kv => holds (snd kv) (fst kv r)) conds.

  (** [Database.Select]: the rows of [table] that meet every condition,
      ordered when an order is asked for.  A row keeps all its columns;
      the caller reads the fields it listed.  Without an order the rows
      come in the order of the table. *)
Definition Select (table : list Row) (order : option (Row -> Z))
      (conds : list ((Row -> sqlval) * condition)) : list Row :=
    let rows := filter (where_ conds) table in
    match order with
    | Some key => order_by key rows
    | None => rows
    end.

  (** The key the server gives the next row of a table. *)
Definition next_id (id : Row -> Z) (table : list Row) : Z :=
    1 + fold_right (fun r m => Z.max (id r) m) 0 table.

  (** [rows[0]] *)
Definition first_row (rows : list Row) : res Row :=
    match rows with
    | [] => Raise IndexError
    | row :: _ => Ok row
    end.
End Select.

(** [if ID:] for an identifier that is [None] or an integer. *)
Definition if_ID {A : Type} (ID : option Z) (then_ : Z -> A) (else_ : A) : A :=
  match ID with
  | Some i => if i =? 0 then else_ else then_ i
  | None => else_
  end.

(** [str(v.ID)] inside a statement: an identifier that is [None] prints as
    a word the server does not know, and the statement is rejected. *)
Definition sql_ID (v : value) : res Z :=
  ID <- attr_ID v ;;
  match ID with
  | Some i => Ok i
  | None => Raise MySQLError
  end.

(** *** Commands on the store: state and exceptions

    An exception leaves the store as it is at that point: [Insert] commits
    at once and nothing is rolled back. *)

Definition M (A : Type) : Type := Database -> res A * Database.

Definition ret {A : Type} (a : A) : M A := fun db => (Ok a, db).

Definition raise {A : Type} (e : exn) : M A := fun db => (Raise e, db).

Definition bindM {A B : Type} (m : M A) (k : A -> M B) : M B :=
  fun db =>
    match m db with
    | (Ok a, db') => k a db'
    | (Raise e, db') => (Raise e, db')
    end.

(** A read: the store is unchanged. *)
Definition query {A : Type} (q : Database -> res A) : M A :=
  fun db => (q db, db).

Notation "x <~ m ;; k" := (bindM m (fun x => k))
  (at level 100, m at next level, right associativity) : py_scope.

(** *** [Database.Insert], table by table

    The server appends the row, gives it the next key of the table and
    stamps it with its clock; [Insert] returns the key. *)

Definition Insert_Owners (name desc : string) : M Z := fun db =>
  let ID := next_id ownerID (tOwners db) in
  (Ok ID,
   mkDatabase (devmode db)
     (tOwners db ++ [mkOwnerRow name desc ID (clock db)])
     (tProjects db) (tSystems db) (tManufacturers db) (tDevices db)
     (tUnits db) (tSensors db) (tRecords db) (tPlayground db) (clock db)).

Definition Insert_Projects (name desc : string) (owner : Z) : M Z := fun db =>
  let ID := next_id projID (tProjects db) in
  (Ok ID,
   mkDatabase (devmode db) (tOwners db)
     (tProjects db ++ [mkProjRow name desc ID (clock db) owner])
     (tSystems db) (tManufacturers db) (tDevices db)
     (tUnits db) (tSensors db) (tRecords db) (tPlayground db) (clock db)).

Definition Insert_Systems (name desc : string) (proj : Z) : M Z := fun db =>
  let ID := next_id sysID (tSystems db) in
  (Ok ID,
   mkDatabase (devmode db) (tOwners db) (tProjects db)
     (tSystems db ++ [mkSysRow name desc ID (clock db) proj])
     (tManufacturers db) (tDevices db)
     (tUnits db) (tSensors db) (tRecords db) (tPlayground db) (clock db)).

Definition Insert_Manufacturers (name desc URL : string) : M Z := fun db =>
  let ID := next_id mfgID (tManufacturers db) in
  (Ok ID,
   mkDatabase (devmode db) (tOwners db) (tProjects db) (tSystems db)
     (tManufacturers db ++ [mkMfgRow name desc URL ID (clock db)])
     (tDevices db)
     (tUnits db) (tSensors db) (tRecords db) (tPlayground db) (clock db)).

Definition Insert_Devices (name desc URL : string) (mfg sys : Z) : M Z :=
  fun db =>
  let ID := next_id devID (tDevices db) in
  (Ok ID,
   mkDatabase (devmode db) (tOwners db) (tProjects db) (tSystems db)
     (tManufacturers db)
     (tDevices db ++ [mkDevRow name desc sys URL mfg ID (clock db)])
     (tUnits db) (tSensors db) (tRecords db) (tPlayground db) (clock db)).

Definition Insert_Units (short long desc : string) : M Z := fun db =>
  let ID := next_id unitID (tUnits db) in
  (Ok ID,
   mkDatabase (devmode db) (tOwners db) (tProjects db) (tSystems db)
     (tManufacturers db) (tDevices db)
     (tUnits db ++ [mkUnitRow short long desc ID])
     (tSensors db) (tRecords db) (tPlayground db) (clock db)).

Definition Insert_Sensors (name desc : string) (dev unit_ : Z) : M Z :=
  fun db =>
  let ID := next_id senID (tSensors db) in
  (Ok ID,
   mkDatabase (devmode db) (tOwners db) (tProjects db) (tSystems db)
     (tManufacturers db) (tDevices db) (tUnits db)
     (tSensors db ++ [mkSenRow name desc dev unit_ ID (clock db)])
     (tRecords db) (tPlayground db) (clock db)).

(** ** The repository: lookups *)

Definition GetOwner (db : Database) (name : string) (ID : option Z)
    : res value :=
  let rows :=
    if_ID ID
      (fun i => Select (tOwners db) None [(int_col ownerID, EQ (SqlInt i))])
      (Select (tOwners db) None [(str_col ownerName, EQ (Enquote name))]) in
  match rows with
  | [] => Ok VNone
  | row :: _ =>
      Owner_init (ownerName row) (ownerDesc row)
        (Some (ownerID row)) (Some (ownerDTG row))
  end.

Definition GetProject (db : Database) (name : string) (ID : option Z)
    : res value :=
  rows <-
    if_ID ID
      (fun i =>
         Ok (Select (tProjects db) None [(int_col projID, EQ (SqlInt i))]))
      match split_dot name with
      | [oName; pName] =>
          owner <- GetOwner db oName None ;;
          check truthy owner
            else_raise DatabaseException "Invalid owner name" ;;
          oid <- sql_ID owner ;;
          Ok (Select (tProjects db) None
                [(str_col projName, EQ (Enquote pName));
                 (int_col proj_ownerID, EQ (SqlInt oid))])
      | _ => Raise ValueError
      end ;;
  match rows with
  | [] => Ok VNone
  | row :: _ =>
      owner <- GetOwner db "" (Some (proj_ownerID row)) ;;
      Project_init (projName row) (projDesc row) owner
        (Some (projID row)) (Some (projDTG row))
  end.

Definition GetSystem (db : Database) (name : string) (ID : option Z)
    : res value :=
  rows <-
    if_ID ID
      (fun i =>
         Ok (Select (tSystems db) None [(int_col sysID, EQ (SqlInt i))]))
      match split_dot name with
      | [oName; pName; sName] =>
          let top := Sep [oName; pName] in
          project <- GetProject db top None ;;
          check truthy project
            else_raise DatabaseException "Invalid project name" ;;
          pid <- sql_ID project ;;
          Ok (Select (tSystems db) None
                [(str_col sysName, EQ (Enquote sName));
                 (int_col sys_projID, EQ (SqlInt pid))])
      | _ => Raise ValueError
      end ;;
  match rows with
  | [] => Ok VNone
  | row :: _ =>
      project <- GetProject db "" (Some (sys_projID row)) ;;
      System_init (sysName row) (sysDesc row) project
        (Some (sysID row)) (Some (sysDTG row))
  end.

Definition GetManufacturer (db : Database) (name : string) (ID : option Z)
    : res value :=
  let rows :=
    if_ID ID
      (fun i =>
         Select (tManufacturers db) None [(int_col mfgID, EQ (SqlInt i))])
      (Select (tManufacturers db) None
         [(str_col mfgName, EQ (Enquote name))]) in
  match rows with
  | [] => Ok VNone
  | row :: _ =>
      Manufacturer_init (mfgName row) (mfgDesc row) (mfgURL row)
        (Some (mfgID row)) (Some (mfgDTG row))
  end.

Definition GetDevice (db : Database) (name : string) (ID : option Z)
    : res value :=
  rows <-
    if_ID ID
      (fun i =>
         Ok (Select (tDevices db) None [(int_col devID, EQ (SqlInt i))]))
      match split_dot name with
      | [oName; pName; sName; dName] =>
          let top := Sep [oName; pName; sName] in
          system <- GetSystem db top None ;;
          check truthy system
            else_raise DatabaseException "System does not exist" ;;
          sid <- sql_ID system ;;
          Ok (Select (tDevices db) None
                [(str_col devName, EQ (Enquote dName));
                 (int_col dev_sysID, EQ (SqlInt sid))])
      | _ => Raise ValueError
      end ;;
  match rows with
  | [] => Ok VNone
  | row :: _ =>
      system <- GetSystem db "" (Some (dev_sysID row)) ;;
      mfg <- GetManufacturer db "" (Some (dev_mfgID row)) ;;
      Device_init (devName row) (devDesc row) system (devURL row) mfg
        (Some (devID row)) (Some (devDTG row))
  end.

Definition GetUnits (db : Database) (long : string) (ID : option Z)
    : res value :=
  let rows :=
    if_ID ID
      (fun i => Select (tUnits db) None [(int_col unitID, EQ (SqlInt i))])
      (Select (tUnits db) None [(str_col unitLong, EQ (Enquote long))]) in
  match rows with
  | [] => Ok VNone
  | row :: _ =>
      Units_init (unitShort row) (unitLong row) (unitDesc row)
        (Some (unitID row))
  end.

Definition GetSensor (db : Database) (name : string) (ID : option Z)
    : res value :=
  rows <-
    if_ID ID
      (fun i =>
         Ok (Select (tSensors db) None [(int_col senID, EQ (SqlInt i))]))
      match split_dot name with
      | [oName; pName; sName; dName; SName] =>
          let top := Sep [oName; pName; sName; dName] in
          device <- GetDevice db top None ;;
          check truthy device
            else_raise DatabaseException "Device not found" ;;
          did <- sql_ID device ;;
          Ok (Select (tSensors db) None
                [(str_col senName, EQ (Enquote SName));
                 (int_col sen_devID, EQ (SqlInt did))])
      | _ => Raise ValueError
      end ;;
  match rows with
  | [] => Ok VNone
  | row :: _ =>
      device <- GetDevice db "" (Some (sen_devID row)) ;;
      units <- GetUnits db "" (Some (sen_unitID row)) ;;
      Sensor_init (senName row) (senDesc row) device units
        (Some (senID row)) (Some (senDTG row))
  end.

(** ** The repository: creation

    Each command looks the entity up (which also resolves its ancestors),
    inserts the row, reads the timestamp back and only then builds the
    object. *)

Definition CreateNewOwner (name desc : string) : M value :=
  dup <~ query (fun db => GetOwner db name None) ;;
  if truthy dup then
    raise (DatabaseException "This owner already exists in the databse")
  else
    ID <~ Insert_Owners name desc ;;
    row <~ query (fun db =>
      first_row (Select (tOwners db) None [(int_col ownerID, EQ (SqlInt ID))])) ;;
    query (fun _ => Owner_init name desc (Some ID) (Some (ownerDTG row))).

Definition CreateNewProject (name desc : string) : M value :=
  match split_dot name with
  | [oName; pName] =>
      dup <~ query (fun db => GetProject db name None) ;;
      if truthy dup then raise (DatabaseException "Project already exists")
      else
        owner <~ query (fun db => GetOwner db oName None) ;;
        oid <~ query (fun _ => sql_ID owner) ;;
        ID <~ Insert_Projects pName desc oid ;;
        row <~ query (fun db =>
          first_row
            (Select (tProjects db) None [(int_col projID, EQ (SqlInt ID))])) ;;
        query (fun _ =>
          Project_init pName desc owner (Some ID) (Some (projDTG row)))
  | _ => raise ValueError
  end.

Definition CreateNewSystem (name desc : string) : M value :=
  match split_dot name with
  | [oName; pName; sName] =>
      dup <~ query (fun db => GetSystem db name None) ;;
      if truthy dup then raise (DatabaseException "System already exists")
      else
        project <~ query (fun db => GetProject db (Sep [oName; pName]) None) ;;
        pid <~ query (fun _ => sql_ID project) ;;
        ID <~ Insert_Systems sName desc pid ;;
        row <~ query (fun db =>
          first_row
            (Select (tSystems db) None [(int_col sysID, EQ (SqlInt ID))])) ;;
        query (fun _ =>
          System_init sName desc project (Some ID) (Some (sysDTG row)))
  | _ => raise ValueError
  end.

Definition CreateNewManufacturer (name desc URL : string) : M value :=
  dup <~ query (fun db => GetManufacturer db name None) ;;
  if truthy dup then raise (DatabaseException "Manufacturer already exists")
  else
    ID <~ Insert_Manufacturers name desc URL ;;
    row <~ query (fun db =>
      first_row
        (Select (tManufacturers db) None [(int_col mfgID, EQ (SqlInt ID))])) ;;
    query (fun _ =>
      Manufacturer_init name desc URL (Some ID) (Some (mfgDTG row))).

Definition CreateNewDevice (name desc URL : string) (mfg : value) : M value :=
  match split_dot name with
  | [oName; pName; sName; dName] =>
      if negb (truthy mfg) then raise (DatabaseException "Manufacturer required")
      else
        dup <~ query (fun db => GetDevice db name None) ;;
        if truthy dup then raise (DatabaseException "Device already exists")
        else
          system <~ query (fun db =>
            GetSystem db (Sep [oName; pName; sName]) None) ;;
          mid <~ query (fun _ => sql_ID mfg) ;;
          sid <~ query (fun _ => sql_ID system) ;;
          ID <~ Insert_Devices dName desc URL mid sid ;;
          row <~ query (fun db =>
            first_row
              (Select (tDevices db) None [(int_col devID, EQ (SqlInt ID))])) ;;
          query (fun _ =>
            Device_init dName desc system URL mfg (Some ID)
              (Some (devDTG row)))
  | _ => raise ValueError
  end.

Definition CreateNewUnits (short long desc : string) : M value :=
  dup <~ query (fun db => GetUnits db long None) ;;
  if truthy dup then raise (DatabaseException "Units already exist")
  else
    ID <~ Insert_Units short long desc ;;
    query (fun _ => Units_init short long desc (Some ID)).

Definition CreateNewSensor (name desc : string) (units : value) : M value :=
  match split_dot name with
  | [oName; pName; sName; dName; SName] =>
      let top := Sep [oName; pName; sName; dName] in
      if negb (truthy units) then raise (DatabaseException "Units required")
      else
        dup <~ query (fun db => GetSensor db name None) ;;
        if truthy dup then raise (DatabaseException "Sensor already exists")
        else
          device <~ query (fun db => GetDevice db top None) ;;
          did <~ query (fun _ => sql_ID device) ;;
          uid <~ query (fun _ => sql_ID units) ;;
          ID <~ Insert_Sensors SName desc did uid ;;
          row <~ query (fun db =>
            first_row
              (Select (tSensors db) None [(int_col senID, EQ (SqlInt ID))])) ;;
          query (fun _ =>
            Sensor_init SName desc device units (Some ID) (Some (senDTG row)))
  | _ => raise ValueError
  end.

(** ** Measurements *)

(** A [Record] object. *)
Record RecordObj := mkRecord
  { rec_data : R; rec_error : R; rec_sensor : value;
    rec_ID : option Z; rec_DTG : option Z }.

Definition Record_init (data error : R) (sensor : value) (ID DTG : option Z)
    : res RecordObj :=
  check truthy sensor
    else_raise ModelException "Records must belong to a valid sensor" ;;
  Ok (mkRecord data error sensor ID DTG).

(** The result of raising to the power one half: the square root of a
    number that is not negative, a complex number otherwise. *)
Inductive number : Type :=
| Float (x : R)
| Complex (re im : R).

Definition pow_half (x : R) : number :=
  if Rle_dec 0 x then Float (sqrt x) else Complex 0 (sqrt (- x)).

(** [x / n] for an integer [n]. *)
Definition truediv (x : R) (n : Z) : res R :=
  if n =? 0 then Raise ZeroDivisionError else Ok (x / IZR n)%R.

(** The builtin [sum]: the items added from left to right, starting from zero. *)
Definition pysum (l : list R) : R := fold_left Rplus l 0%R.

Module RecordSet.

Record t := mk
    { times : list (option Z);
      data : list R;
      error : list R;
      sensor : value;
      N : Z }.

  (** [RecordSet.__init__] *)
Definition init (records : list RecordObj) : res t :=
    let times := map rec_DTG records in
    let data := map rec_data records in
    let error := map rec_error records in
    first <- first_row records ;;
    Ok (mk times data error (rec_sensor first) (Z.of_nat (List.length times))).

Definition Mean (self : t) : res R :=
    truediv (pysum (data self)) (N self).

Definition Variance (self : t) : res R :=
    xbar <- Mean self ;;
    truediv (pysum (map (fun x => (x - xbar) ^ 2)%R (data self))) (N self).

Definition StandardDeviation (self : t) : res number :=
    v <- Variance self ;;
    q <- truediv (v * IZR (N self))%R (N self - 1) ;;
    Ok (pow_half q).

End RecordSet.

(** [for row in rows: records.append(Record(...))] *)
Fixpoint build_records (sensor : value) (rows : list RecRow)
    : res (list RecordObj) :=
  match rows with
  | [] => Ok []
  | row :: rest =>
      record <- Record_init (recData row) (recError row) sensor
                  (Some (recID row)) (Some (recDTG row)) ;;
      records <- build_records sensor rest ;;
      Ok (record :: records)
  end.

Definition GetRecords (db : Database) (sensor : value)
    (startTime endTime : Z) : res (option RecordSet.t) :=
  check truthy sensor else_raise DatabaseException "Sensor Required" ;;
  sid <- sql_ID sensor ;;
  let rows :=
    Select (recTable db) (Some recDTG)
      [(int_col rec_senID, EQ (SqlInt sid));
       (time_col recDTG, InRange (EnDate startTime) (EnDate endTime))] in
  match rows with
  | [] => Ok None
  | _ =>
      records <- build_records sensor rows ;;
      set <- RecordSet.init records ;;
      Ok (Some set)
  end.

(** ** Vocabulary of the statements *)

(** The lookup of each class. *)
Definition Get (c : class) : Database -> string -> option Z -> res value :=
  match c with
  | Owner => GetOwner
  | Project => GetProject
  | System => GetSystem
  | Manufacturer => GetManufacturer
  | Device => GetDevice
  | Units => GetUnits
  | Sensor => GetSensor
  end.



(** A call of one of the seven creation commands. *)
Inductive creation : Type :=
| NewOwner (name desc : string)
| NewProject (name desc : string)
| NewSystem (name desc : string)
| NewManufacturer (name desc URL : string)
| NewDevice (name desc URL : string) (mfg : value)
| NewUnits (short long desc : string)
| NewSensor (name desc : string) (units : value).

Definition Create (a : creation) : M value :=
  match a with
  | NewOwner name desc => CreateNewOwner name desc
  | NewProject name desc => CreateNewProject name desc
  | NewSystem name desc => CreateNewSystem name desc
  | NewManufacturer name desc URL => CreateNewManufacturer name desc URL
  | NewDevice name desc URL mfg => CreateNewDevice name desc URL mfg
  | NewUnits short long desc => CreateNewUnits short long desc
  | NewSensor name desc units => CreateNewSensor name desc units
  end.










(** Arithmetic mean and population variance, as the words define them. *)
Definition total (l : list R) : R := fold_right Rplus 0%R l.

Definition arithmetic_mean (l : list R) : R :=
  (total l / INR (List.length l))%R.

Definition population_variance (l : list R) : R :=
  (total (map (fun x => (x - arithmetic_mean l) * (x - arithmetic_mean l)) l)
   / INR (List.length l))%R.

(** The measurements a time-range query is about: those of the sensor with
    key [sid], stamped between [t0] and [t1], bounds included. *)
Definition in_range (sid t0 t1 : Z) (r : RecRow) : bool :=
  (rec_senID r =? sid) && (t0 <=? recDTG r) && (recDTG r <=? t1).

Definition measurement (r : RecRow) : Z * R * R :=
  (recDTG r, recData r, recError r).

(** The measurements a record set holds, in its order; [None] when a
    record carries no timestamp. *)
Fixpoint measurements_of (times : list (option Z)) (data error : list R)
    : option (list (Z * R * R)) :=
  match times, data, error with
  | [], [], [] => Some []
  | Some t :: ts, y :: ys, dy :: dys =>
      match measurements_of ts ys dys with
      | Some l => Some ((t, y, dy) :: l)
      | None => None
      end
  | _, _, _ => None
  end.



(** The object each lookup builds from the row it found. *)
Definition Owner_of_row (row : OwnerRow) : res value :=
  Owner_init (ownerName row) (ownerDesc row)
    (Some (ownerID row)) (Some (ownerDTG row)).

Definition Project_of_row (db : Database) (row : ProjRow) : res value :=
  owner <- GetOwner db "" (Some (proj_ownerID row)) ;;
  Project_init (projName row) (projDesc row) owner
    (Some (projID row)) (Some (projDTG row)).

Definition System_of_row (db : Database) (row : SysRow) : res value :=
  project <- GetProject db "" (Some (sys_projID row)) ;;
  System_init (sysName row) (sysDesc row) project
    (Some (sysID row)) (Some (sysDTG row)).

Definition Manufacturer_of_row (row : MfgRow) : res value :=
  Manufacturer_init (mfgName row) (mfgDesc row) (mfgURL row)
    (Some (mfgID row)) (Some (mfgDTG row)).

Definition Device_of_row (db : Database) (row : DevRow) : res value :=
  system <- GetSystem db "" (Some (dev_sysID row)) ;;
  mfg <- GetManufacturer db "" (Some (dev_mfgID row)) ;;
  Device_init (devName row) (devDesc row) system (devURL row) mfg
    (Some (devID row)) (Some (devDTG row)).

Definition Units_of_row (row : UnitRow) : res value :=
  Units_init (unitShort row) (unitLong row) (unitDesc row)
    (Some (unitID row)).

Definition Sensor_of_row (db : Database) (row : SenRow) : res value :=
  device <- GetDevice db "" (Some (sen_devID row)) ;;
  units <- GetUnits db "" (Some (sen_unitID row)) ;;
  Sensor_init (senName row) (senDesc row) device units
    (Some (senID row)) (Some (senDTG row)).





(** ** Sample data *)

Definition lab_owner : value := VOwner "lab" "the lab" (Some 1) (Some 0).
Definition lab_project : value :=
  VProject "edm" "a project" lab_owner (Some 1) (Some 0).
Definition lab_system : value :=
  VSystem "vac" "vacuum" lab_project (Some 1) (Some 0).
Definition lab_mfg : value :=
  VManufacturer "acme" "a maker" "http://acme.example" (Some 1) (Some 0).
Definition lab_device : value :=
  VDevice "gauge" "a gauge" lab_system "http://x" lab_mfg (Some 1) (Some 0).
Definition lab_units : value := VUnits "Pa" "pascal" "pressure" (Some 1).
Definition lab_sensor : value :=
  VSensor "p1" "pressure" lab_device lab_units (Some 1) (Some 0).

Definition three_records : list RecordObj :=
  [ mkRecord 10 1 lab_sensor (Some 1) (Some 100);
    mkRecord 20 1 lab_sensor (Some 2) (Some 200);
    mkRecord 30 1 lab_sensor (Some 3) (Some 300) ].

Definition three_set : RecordSet.t :=
  RecordSet.mk [Some 100; Some 200; Some 300] [10; 20; 30]%R [1; 1; 1]%R
    lab_sensor 3.



(** A store with one entity of each class and four measurements. *)
Definition sample_db : Database :=
  mkDatabase false
    [mkOwnerRow "lab" "the lab" 1 0]
    [mkProjRow "edm" "a project" 1 0 1]
    [mkSysRow "vac" "vacuum" 1 0 1]
    [mkMfgRow "acme" "a maker" "http://acme.example" 1 0]
    [mkDevRow "gauge" "a gauge" 1 "http://x" 1 1 0]
    [mkUnitRow "Pa" "pascal" "pressure" 1]
    [mkSenRow "p1" "pressure" 1 1 1 0]
    [mkRecRow 30 1 300 1 1; mkRecRow 10 1 100 2 1;
     mkRecRow 99 1 150 3 2; mkRecRow 20 1 200 4 1]
    [] 0.

(** ** The repository: recording and the latest measurement *)

(** [Insert] into [self.recTable]. *)
Definition Insert_Records (data error : R) (sen : Z) : M Z := fun db =>
  let ID := next_id recID (recTable db) in
  let row := mkRecRow data error (clock db) ID sen in
  (Ok ID,
   if devmode db then
     mkDatabase (devmode db) (tOwners db) (tProjects db) (tSystems db)
       (tManufacturers db) (tDevices db) (tUnits db) (tSensors db)
       (tRecords db) (tPlayground db ++ [row]) (clock db)
   else
     mkDatabase (devmode db) (tOwners db) (tProjects db) (tSystems db)
       (tManufacturers db) (tDevices db) (tUnits db) (tSensors db)
       (tRecords db ++ [row]) (tPlayground db) (clock db)).

Definition RecordMeasurement (sensor : value) (data error : R)
    : M RecordObj :=
  if negb (truthy sensor) then raise (DatabaseException "Invalid sensor")
  else
    sid <~ query (fun _ => sql_ID sensor) ;;
    ID <~ Insert_Records data error sid ;;
    row <~ query (fun db =>
      first_row (Select (recTable db) None [(int_col recID, EQ (SqlInt ID))])) ;;
    query (fun _ =>
      Record_init data error sensor (Some ID) (Some (recDTG row))).

(** [GetMostRecentRecord]: the order is [recDTG DESC LIMIT 1], that is,
    ascending by the negated timestamp, first row only. *)
Definition GetMostRecentRecord (db : Database) (sensor : value)
    : res (option RecordObj) :=
  check truthy sensor else_raise DatabaseException "Sensor Required" ;;
  sid <- sql_ID sensor ;;
  let rows :=
    firstn 1
      (Select (recTable db) (Some (fun r => - recDTG r))
         [(int_col rec_senID, EQ (SqlInt sid))]) in
  match rows with
  | [] => Ok None
  | row :: _ =>
      record <- Record_init (recData row) (recError row) sensor
                  (Some (recID row)) (Some (recDTG row)) ;;
      Ok (Some record)
  end.

(** ** The repository: lists *)

(** [for row in rows: objects.append(...)] *)
Fixpoint build_all {Row : Type} (build : Row -> res value) (rows : list Row)
    : res (list value) :=
  match rows with
  | [] => Ok []
  | row :: rest =>
      object <- build row ;;
      objects <- build_all build rest ;;
      Ok (object :: objects)
  end.

(** [None] when no row was found, the list of the objects otherwise. *)
Definition list_or_None {Row : Type} (rows : list Row)
    (build : Row -> res value) : res (option (list value)) :=
  match rows with
  | [] => Ok None
  | _ => objects <- build_all build rows ;; Ok (Some objects)
  end.

Definition GetOwners (db : Database) : res (option (list value)) :=
  list_or_None (Select (tOwners db) None []) Owner_of_row.

Definition GetProjects (db : Database) (ownID : option Z)
    : res (option (list value)) :=
  list_or_None
    (if_ID ownID
       (fun i => Select (tProjects db) None
                   [(int_col proj_ownerID, EQ (SqlInt i))])
       (Select (tProjects db) None []))
    (Project_of_row db).

Definition GetSystems (db : Database) (pID : option Z)
    : res (option (list value)) :=
  list_or_None
    (if_ID pID
       (fun i => Select (tSystems db) None
                   [(int_col sys_projID, EQ (SqlInt i))])
       (Select (tSystems db) None []))
    (System_of_row db).

Definition GetManufacturers (db : Database) : res (option (list value)) :=
  list_or_None (Select (tManufacturers db) None []) Manufacturer_of_row.

Definition GetDevices (db : Database) (sID : option Z)
    : res (option (list value)) :=
  list_or_None
    (if_ID sID
       (fun i => Select (tDevices db) None
                   [(int_col dev_sysID, EQ (SqlInt i))])
       (Select (tDevices db) None []))
    (Device_of_row db).

Definition GetAllUnits (db : Database) : res (option (list value)) :=
  list_or_None (Select (tUnits db) None []) Units_of_row.

Definition GetSensors (db : Database) (dID : option Z)
    : res (option (list value)) :=
  list_or_None
    (if_ID dID
       (fun i => Select (tSensors db) None
                   [(int_col sen_devID, EQ (SqlInt i))])
       (Select (tSensors db) None []))
    (Sensor_of_row db).

(** The list of a class, under a parent key when one is given (the key is
    ignored by the classes that have no parent). *)
Definition GetAll (c : class) (db : Database) (parent : option Z)
    : res (option (list value)) :=
  match c with
  | Owner => GetOwners db
  | Project => GetProjects db parent
  | System => GetSystems db parent
  | Manufacturer => GetManufacturers db
  | Device => GetDevices db parent
  | Units => GetAllUnits db
  | Sensor => GetSensors db parent
  end.

(** ** Labels of a record set *)

(** [v.units], [v.desc], [v.short] *)
Definition attr_units (v : value) : res value :=
  match v with
  | VSensor _ _ _ units _ _ => Ok units
  | _ => Raise AttributeError
  end.

Definition attr_desc (v : value) : res string :=
  match v with
  | VOwner _ desc _ _ | VProject _ desc _ _ _ | VSystem _ desc _ _ _
  | VManufacturer _ desc _ _ _ | VDevice _ desc _ _ _ _ _
  | VUnits _ _ desc _ | VSensor _ desc _ _ _ _ => Ok desc
  | _ => Raise AttributeError
  end.

Definition attr_short (v : value) : res string :=
  match v with
  | VUnits short _ _ _ => Ok short
  | _ => Raise AttributeError
  end.

(** [RecordSet.GetUnitsLabel] *)
Definition GetUnitsLabel (self : RecordSet.t) : res string :=
  units <- attr_units (RecordSet.sensor self) ;;
  desc <- attr_desc units ;;
  short <- attr_short units ;;
  Ok (desc ++ " (" ++ short ++ ")").

(** ** More vocabulary *)


(** [ran a db r db']: the creation [a] passed its lookups, inserted its
    row, which gave the store [db'], and ended with the result [r] of the
    constructor. *)
Definition ran (a : creation) (db : Database) (r : res value)
    (db' : Database) : Prop :=
  match a with
  | NewOwner name desc =>
      GetOwner db name None = Ok VNone
      /\ r = Owner_init name desc (Some (next_id ownerID (tOwners db)))
               (Some (clock db))
      /\ db' = snd (Insert_Owners name desc db)
  | NewProject name desc =>
      exists o p owner oid,
        split_dot name = [o; p]
        /\ GetProject db name None = Ok VNone
        /\ GetOwner db o None = Ok owner /\ sql_ID owner = Ok oid
        /\ r = Project_init p desc owner
                 (Some (next_id projID (tProjects db))) (Some (clock db))
        /\ db' = snd (Insert_Projects p desc oid db)
  | NewSystem name desc =>
      exists o p s project pid,
        split_dot name = [o; p; s]
        /\ GetSystem db name None = Ok VNone
        /\ GetProject db (Sep [o; p]) None = Ok project
        /\ sql_ID project = Ok pid
        /\ r = System_init s desc project
                 (Some (next_id sysID (tSystems db))) (Some (clock db))
        /\ db' = snd (Insert_Systems s desc pid db)
  | NewManufacturer name desc URL =>
      GetManufacturer db name None = Ok VNone
      /\ r = Manufacturer_init name desc URL
               (Some (next_id mfgID (tManufacturers db))) (Some (clock db))
      /\ db' = snd (Insert_Manufacturers name desc URL db)
  | NewDevice name desc URL mfg =>
      exists o p s d system mid sid,
        split_dot name = [o; p; s; d]
        /\ truthy mfg = true
        /\ GetDevice db name None = Ok VNone
        /\ GetSystem db (Sep [o; p; s]) None = Ok system
        /\ sql_ID mfg = Ok mid /\ sql_ID system = Ok sid
        /\ r = Device_init d desc system URL mfg
                 (Some (next_id devID (tDevices db))) (Some (clock db))
        /\ db' = snd (Insert_Devices d desc URL mid sid db)
  | NewUnits short long desc =>
      GetUnits db long None = Ok VNone
      /\ r = Units_init short long desc (Some (next_id unitID (tUnits db)))
      /\ db' = snd (Insert_Units short long desc db)
  | NewSensor name desc units =>
      exists o p s d n device did uid,
        split_dot name = [o; p; s; d; n]
        /\ truthy units = true
        /\ GetSensor db name None = Ok VNone
        /\ GetDevice db (Sep [o; p; s; d]) None = Ok device
        /\ sql_ID device = Ok did /\ sql_ID units = Ok uid
        /\ r = Sensor_init n desc device units
                 (Some (next_id senID (tSensors db))) (Some (clock db))
        /\ db' = snd (Insert_Sensors n desc did uid db)
  end.


(** [well_formed v]: the object satisfies what its constructor checks, and
    so do the objects it refers to, each of the class its place asks for. *)
Definition within (bound : Z) (s : string) : bool :=
  negb (s =? "")%string && (len s <=? bound).

Fixpoint well_formed (v : value) : bool :=
  match v with
  | VOwner name desc _ _ => within 12 name && within 255 desc
  | VProject name desc owner _ _ =>
      within 12 name && within 255 desc
      && isinstance owner Owner && well_formed owner
  | VSystem name desc project _ _ =>
      within 12 name && within 255 desc
      && isinstance project Project && well_formed project
  | VManufacturer name desc URL _ _ =>
      within 12 name && within 255 desc && within 255 URL
  | VDevice name desc system URL mfg _ _ =>
      within 12 name && within 255 desc && within 255 URL
      && isinstance system System && well_formed system
      && isinstance mfg Manufacturer && well_formed mfg
  | VUnits short long desc _ =>
      within 25 short && within 255 long && within 255 desc
  | VSensor name desc device units _ _ =>
      within 12 name && within 255 desc
      && isinstance device Device && well_formed device
      && isinstance units Units && well_formed units
  | _ => false
  end.

(** The largest timestamp among the measurements of a sensor. *)
Definition latest_of (sid : Z) (table : list RecRow) (t : Z) : Prop :=
  (exists r, In r table /\ rec_senID r = sid /\ recDTG r = t)
  /\ forall r, In r table -> rec_senID r = sid -> recDTG r <= t.


(** The number of rows a list is about: those under the parent key when one
    is given, all the rows of the table otherwise. *)
Definition listed (c : class) (db : Database) (parent : option Z) : nat :=
  match c with
  | Owner => List.length (tOwners db)
  | Project =>
      List.length
        (if_ID parent
           (fun i => filter (fun r => proj_ownerID r =? i) (tProjects db))
           (tProjects db))
  | System =>
      List.length
        (if_ID parent
           (fun i => filter (fun r => sys_projID r =? i) (tSystems db))
           (tSystems db))
  | Manufacturer => List.length (tManufacturers db)
  | Device =>
      List.length
        (if_ID parent
           (fun i => filter (fun r => dev_sysID r =? i) (tDevices db))
           (tDevices db))
  | Units => List.length (tUnits db)
  | Sensor =>
      List.length
        (if_ID parent
           (fun i => filter (fun r => sen_devID r =? i) (tSensors db))
           (tSensors db))
  end.


(** * Properties *)

(** ** Construction of the model objects *)

Lemma Group_init_Ok (name desc : string) :
  Group_init name desc = Ok tt <->
  name <> "" /\ desc <> "" /\ len name <= 12 /\ len desc <= 255.
Proof.
  unfold Group_init.
  destruct (String.eqb_spec name ""); destruct (String.eqb_spec desc "");
    simpl; try (split; [discriminate | tauto]).
  destruct (Z.ltb_spec 12 (len name)); simpl;
    [split; [discriminate | lia] |].
  destruct (Z.ltb_spec 255 (len desc)); simpl;
    [split; [discriminate | lia] |].
  split; auto.
Qed.

Lemma Group_init_cases (name desc : string) :
  Group_init name desc = Ok tt \/ is_ModelException (Group_init name desc).
Proof.
  unfold Group_init, is_ModelException.
  destruct (_ || _); simpl; eauto.
  destruct (12 <? len name); simpl; eauto.
  destruct (255 <? len desc); simpl; eauto.
Qed.

Lemma Group_init_long_name (name desc : string) :
  12 < len name -> is_ModelException (Group_init name desc).
Proof.
  intros Hlen. unfold Group_init, is_ModelException.
  destruct (_ || _); simpl; eauto.
  destruct (Z.ltb_spec 12 (len name)); simpl; eauto. lia.
Qed.

(** C7. A project, a system or a sensor built with a parent that is [None]
    (or false in any other way), or that is not an instance of the class
    above it (an owner, a project, a device), raises a [ModelException],
    whatever the other arguments are. *)
Theorem C7_parent_must_be_instance :
  forall (name desc : string) (parent units : value) (ID DTG : option Z),
    (truthy parent = false \/ isinstance parent Owner = false ->
     is_ModelException (Project_init name desc parent ID DTG))
    /\ (truthy parent = false \/ isinstance parent Project = false ->
        is_ModelException (System_init name desc parent ID DTG))
    /\ (truthy parent = false \/ isinstance parent Device = false ->
        is_ModelException (Sensor_init name desc parent units ID DTG)).
Proof.
  intros name desc parent units ID DTG.
  unfold Project_init, System_init, Sensor_init, is_ModelException.
  repeat split; intros [H | H]; rewrite ?H;
    destruct (truthy parent); rewrite ?H; eauto.
Qed.

Lemma C7_witness :
  is_ModelException (Project_init "proj" "a project" VNone None None)
  /\ is_ModelException
       (System_init "sys" "a system" (VOwner "bob" "an owner" None None)
          None None)
  /\ is_ModelException (Sensor_init "sen" "a sensor" (VInt 7) VNone None None).
Proof.
  split; [| split].
  - apply (C7_parent_must_be_instance "proj" "a project" VNone VNone None None).
    left; reflexivity.
  - apply (C7_parent_must_be_instance "sys" "a system"
             (VOwner "bob" "an owner" None None) VNone None None).
    right; reflexivity.
  - apply (C7_parent_must_be_instance "sen" "a sensor" (VInt 7) VNone None None).
    right; reflexivity.
Defined.

(** A device and a sensor do refuse a manufacturer or units that are
    [None]. *)
Lemma Device_init_no_mfg (name desc URL : string) (system mfg : value)
    (ID DTG : option Z) :
  truthy mfg = false ->
  is_ModelException (Device_init name desc system URL mfg ID DTG).
Proof.
  intros H. unfold Device_init, is_ModelException. rewrite H.
  destruct (truthy system); eauto.
  destruct (isinstance system System); eauto.
  destruct (negb (URL =? "")%string); eauto.
  destruct (negb (255 <? len URL)); eauto.
Qed.

Lemma Sensor_init_no_units (name desc : string) (device units : value)
    (ID DTG : option Z) :
  truthy units = false ->
  is_ModelException (Sensor_init name desc device units ID DTG).
Proof.
  intros H. unfold Sensor_init, is_ModelException. rewrite H.
  destruct (truthy device); eauto.
  destruct (isinstance device Device); eauto.
Qed.

(** C8. The constructors test the manufacturer and the units for truth
    only: a device is built with a piece of text as its manufacturer, and a
    sensor with an owner as its units. *)
Theorem C8_manufacturer_and_units_class_unchecked :
  let owner := VOwner "lab" "the lab" (Some 1) (Some 0) in
  let project := VProject "edm" "a project" owner (Some 1) (Some 0) in
  let system := VSystem "vac" "vacuum" project (Some 1) (Some 0) in
  let device := VDevice "gauge" "a gauge" system "http://x" (VStr "acme")
                  (Some 1) (Some 0) in
  isinstance (VStr "acme") Manufacturer = false
  /\ Device_init "gauge" "a gauge" system "http://x" (VStr "acme")
       (Some 1) (Some 0) = Ok device
  /\ isinstance owner Units = false
  /\ Sensor_init "p1" "pressure" device owner (Some 1) (Some 0)
     = Ok (VSensor "p1" "pressure" device owner (Some 1) (Some 0)).
Proof.
  repeat split.
Qed.

(** C9. A manufacturer whose name is longer than 12 characters is refused
    with a [ModelException]: the bound of [Group] applies, whatever the
    description and the URL are. *)
Theorem C9_manufacturer_name_bound :
  forall (name desc URL : string) (ID DTG : option Z),
    12 < len name ->
    is_ModelException (Manufacturer_init name desc URL ID DTG).
Proof.
  intros name desc URL ID DTG Hlen. unfold Manufacturer_init.
  destruct (negb (URL =? "")%string); [| red; eauto].
  destruct (negb (255 <? len URL)); [| red; eauto].
  destruct (Group_init_long_name name desc Hlen) as [msg ->].
  red; simpl; eauto.
Qed.

Lemma C9_witness :
  is_ModelException
    (Manufacturer_init "Keithley Instruments" "meters" "http://k.example"
       None None).
Proof.
  apply (C9_manufacturer_name_bound "Keithley Instruments" "meters"
           "http://k.example" None None).
  vm_compute. reflexivity.
Defined.

(** ** Record sets *)

Lemma init_inv (records : list RecordObj) (s : RecordSet.t) :
  RecordSet.init records = Ok s ->
  exists first rest,
    records = first :: rest
    /\ s = RecordSet.mk (map rec_DTG records) (map rec_data records)
             (map rec_error records) (rec_sensor first)
             (Z.of_nat (List.length records)).
Proof.
  unfold RecordSet.init. destruct records as [| first rest]; simpl.
  - discriminate.
  - intros [= <-]. exists first, rest. now rewrite length_map.
Qed.

Lemma pysum_from (l : list R) (a : R) :
  fold_left Rplus l a = (a + total l)%R.
Proof.
  revert a. induction l as [| x l IH]; intros a; simpl.
  - ring.
  - rewrite IH. ring.
Qed.

Lemma pysum_total (l : list R) : pysum l = total l.
Proof. unfold pysum. rewrite pysum_from. ring. Qed.

Lemma truediv_nat (x : R) (n : nat) :
  n <> 0%nat -> truediv x (Z.of_nat n) = Ok (x / INR n)%R.
Proof.
  intros Hn. unfold truediv.
  destruct (Z.eqb_spec (Z.of_nat n) 0) as [E | _]; [lia |].
  now rewrite INR_IZR_INZ.
Qed.


Lemma Mean_spec (records : list RecordObj) (s : RecordSet.t) :
  RecordSet.init records = Ok s ->
  RecordSet.Mean s = Ok (arithmetic_mean (map rec_data records)).
Proof.
  intros H. destruct (init_inv _ _ H) as (first & rest & -> & ->).
  unfold RecordSet.Mean, arithmetic_mean. cbn [RecordSet.data RecordSet.N].
  rewrite truediv_nat by discriminate.
  now rewrite pysum_total, length_map.
Qed.

Lemma Variance_spec (records : list RecordObj) (s : RecordSet.t) :
  RecordSet.init records = Ok s ->
  RecordSet.Variance s = Ok (population_variance (map rec_data records)).
Proof.
  intros H. unfold RecordSet.Variance. rewrite (Mean_spec _ _ H).
  destruct (init_inv _ _ H) as (first & rest & -> & ->).
  cbn [bind RecordSet.data RecordSet.N].
  rewrite truediv_nat by discriminate.
  unfold population_variance. rewrite pysum_total, length_map.
  do 3 f_equal. apply map_ext. intros x. ring.
Qed.


(** C10. No record set is built from an empty sequence: the constructor
    fails with an index error on the first record.  A record set that was
    built counts at least one record and refers to the sensor of the first
    one. *)
Theorem C10_record_set_never_empty :
  RecordSet.init [] = Raise IndexError
  /\ forall (records : list RecordObj) (s : RecordSet.t),
       RecordSet.init records = Ok s ->
       1 <= RecordSet.N s
       /\ RecordSet.N s = Z.of_nat (List.length records)
       /\ exists first rest,
            records = first :: rest
            /\ RecordSet.sensor s = rec_sensor first.
Proof.
  split; [reflexivity |].
  intros records s H.
  destruct (init_inv _ _ H) as (first & rest & -> & ->).
  cbn [RecordSet.N RecordSet.sensor]. repeat split.
  - simpl List.length. lia.
  - now exists first, rest.
Qed.



Lemma C10_witness :
  1 <= RecordSet.N three_set
  /\ RecordSet.N three_set = Z.of_nat (List.length three_records)
  /\ exists first rest,
       three_records = first :: rest
       /\ RecordSet.sensor three_set = rec_sensor first.
Proof.
  destruct C10_record_set_never_empty as [_ H].
  apply (H three_records three_set). reflexivity.
Defined.



(** ** Queries *)

Lemma sql_eq_int (x y : Z) : sql_eq (SqlInt x) (SqlInt y) = (x =? y).
Proof.
  unfold sql_eq, sql_compare.
  destruct (Z.compare_spec x y); destruct (Z.eqb_spec x y);
    trivial; lia.
Qed.


Lemma sql_le_time (x y : Z) : sql_le (SqlTime x) (SqlTime y) = (x <=? y).
Proof.
  unfold sql_le, sql_compare, Z.leb. now destruct (x ?= y).
Qed.

Section Select_facts.
Context {Row : Type}.
Implicit Types (table rows : list Row) (key id : Row -> Z).

Lemma Select_by_id table id (i : Z) :
    Select table None [(int_col id, EQ (SqlInt i))]
    = filter (fun r => id r =? i) table.
  Proof.
    unfold Select. apply filter_ext. intros r.
    unfold where_, holds, int_col. simpl.
    now rewrite sql_eq_int, andb_true_r.
  Qed.



Lemma insert_by_perm key (r : Row) rows :
    Permutation (insert_by key r rows) (r :: rows).
  Proof.
    induction rows as [| x xs IH]; simpl; [reflexivity |].
    destruct (key r <=? key x); [reflexivity |].
    rewrite IH. apply perm_swap.
  Qed.

Lemma order_by_perm key rows : Permutation (order_by key rows) rows.
  Proof.
    induction rows as [| x xs IH]; simpl; [reflexivity |].
    rewrite insert_by_perm. now constructor.
  Qed.

Lemma insert_by_sorted key (r : Row) rows :
    Sorted (fun a b => key a <= key b) rows ->
    Sorted (fun a b => key a <= key b) (insert_by key r rows).
  Proof.
    induction 1 as [| x xs Hs IH Hhd]; simpl.
    - repeat constructor.
    - destruct (Z.leb_spec (key r) (key x)).
      + repeat constructor; trivial.
      + constructor; trivial.
        destruct xs as [| y ys]; simpl.
        * repeat constructor. lia.
        * inversion Hhd; subst.
          destruct (key r <=? key y); constructor; lia.
  Qed.

Lemma order_by_sorted key rows :
    Sorted (fun a b => key a <= key b) (order_by key rows).
  Proof.
    induction rows as [| x xs IH]; simpl; [constructor |].
    now apply insert_by_sorted.
  Qed.

Lemma order_by_nil key rows : order_by key rows = [] -> rows = [].
  Proof.
    intros H. pose proof (order_by_perm key rows) as P. rewrite H in P.
    now apply Permutation_nil.
  Qed.
End Select_facts.

Lemma Select_range (table : list RecRow) (sid t0 t1 : Z) :
  Select table (Some recDTG)
    [(int_col rec_senID, EQ (SqlInt sid));
     (time_col recDTG, InRange (EnDate t0) (EnDate t1))]
  = order_by recDTG (filter (in_range sid t0 t1) table).
Proof.
  unfold Select. f_equal. apply filter_ext. intros r.
  unfold where_, holds, int_col, time_col, EnDate, in_range. simpl.
  now rewrite sql_eq_int, !sql_le_time, andb_true_r, andb_assoc.
Qed.

Lemma build_records_Ok (sensor : value) (rows : list RecRow) :
  truthy sensor = true ->
  build_records sensor rows
  = Ok (map (fun row => mkRecord (recData row) (recError row) sensor
                          (Some (recID row)) (Some (recDTG row))) rows).
Proof.
  intros Ht. induction rows as [| row rows IH]; simpl; trivial.
  unfold Record_init. rewrite Ht, IH. reflexivity.
Qed.

Lemma measurements_of_rows (rows : list RecRow) :
  measurements_of (map (fun r => Some (recDTG r)) rows) (map recData rows)
    (map recError rows)
  = Some (map measurement rows).
Proof.
  induction rows as [| r rows IH]; simpl; trivial. now rewrite IH.
Qed.

Lemma sorted_measurements (rows : list RecRow) :
  Sorted (fun a b => recDTG a <= recDTG b) rows ->
  Sorted (fun a b => fst (fst a) <= fst (fst b)) (map measurement rows).
Proof.
  induction 1 as [| r rows Hs IH Hhd]; simpl; constructor; trivial.
  destruct Hhd; simpl; constructor; trivial.
Qed.

(** C4. [GetRecords] refuses a sensor that is [None] with a
    [DatabaseException].  For a sensor with a key it returns [None] when no
    measurement of that sensor is stamped between the two bounds, and
    otherwise a record set that holds exactly those measurements, by
    ascending timestamp. *)
Theorem C4_GetRecords :
  forall (db : Database) (t0 t1 : Z),
    is_DatabaseException (GetRecords db VNone t0 t1)
    /\ forall (sensor : value) (sid : Z),
         isinstance sensor Sensor = true ->
         attr_ID sensor = Ok (Some sid) ->
         let wanted := filter (in_range sid t0 t1) (recTable db) in
         (wanted = [] -> GetRecords db sensor t0 t1 = Ok None)
         /\ (wanted <> [] ->
             exists (s : RecordSet.t) (ms : list (Z * R * R)),
               GetRecords db sensor t0 t1 = Ok (Some s)
               /\ measurements_of (RecordSet.times s) (RecordSet.data s)
                    (RecordSet.error s) = Some ms
               /\ Permutation ms (map measurement wanted)
               /\ Sorted (fun a b => fst (fst a) <= fst (fst b)) ms
               /\ RecordSet.sensor s = sensor
               /\ RecordSet.N s = Z.of_nat (List.length wanted)).
Proof.
  intros db t0 t1. split.
  - unfold GetRecords. simpl. red. eauto.
  - intros sensor sid Hclass HID wanted.
    assert (Ht : truthy sensor = true) by (destruct sensor; trivial; discriminate).
    unfold GetRecords, sql_ID. rewrite Ht, HID. cbn [bind].
    rewrite Select_range. fold wanted. split.
    + intros ->. reflexivity.
    + intros Hne.
      destruct (order_by recDTG wanted) as [| r rows] eqn:E.
      { now apply order_by_nil in E. }
      rewrite build_records_Ok by trivial. cbn [bind map].
      unfold RecordSet.init. cbn [first_row bind rec_sensor].
      eexists. exists (map measurement (r :: rows)).
      split; [reflexivity |]. cbn [RecordSet.times RecordSet.data
        RecordSet.error RecordSet.sensor RecordSet.N].
      pose proof (order_by_perm recDTG wanted) as P. rewrite E in P.
      repeat split.
      * rewrite <- (measurements_of_rows (r :: rows)). simpl.
        now rewrite !map_map.
      * now apply Permutation_map.
      * apply sorted_measurements. rewrite <- E. apply order_by_sorted.
      * rewrite <- (Permutation_length P). simpl.
        now rewrite !length_map.
Qed.

Example sample_sensor :
  GetSensor sample_db "lab.edm.vac.gauge.p1" None = Ok lab_sensor.
Proof. reflexivity. Qed.

Example sample_records :
  exists s,
    GetRecords sample_db lab_sensor 100 250 = Ok (Some s)
    /\ RecordSet.times s = [Some 100; Some 200]
    /\ RecordSet.data s = [10; 20]%R.
Proof. eexists. split; [reflexivity | split; reflexivity]. Qed.

Lemma C4_witness :
  GetRecords sample_db lab_sensor 1000 2000 = Ok None
  /\ exists (s : RecordSet.t) (ms : list (Z * R * R)),
       GetRecords sample_db lab_sensor 100 250 = Ok (Some s)
       /\ measurements_of (RecordSet.times s) (RecordSet.data s)
            (RecordSet.error s) = Some ms
       /\ Permutation ms
            (map measurement
               (filter (in_range 1 100 250) (recTable sample_db)))
       /\ Sorted (fun a b => fst (fst a) <= fst (fst b)) ms
       /\ RecordSet.sensor s = lab_sensor
       /\ RecordSet.N s
          = Z.of_nat
              (List.length (filter (in_range 1 100 250) (recTable sample_db))).
Proof.
  split.
  - destruct (C4_GetRecords sample_db 1000 2000) as [_ H].
    destruct (H lab_sensor 1 eq_refl eq_refl) as [Hnone _].
    apply Hnone. reflexivity.
  - destruct (C4_GetRecords sample_db 100 250) as [_ H].
    destruct (H lab_sensor 1 eq_refl eq_refl) as [_ Hsome].
    apply Hsome. simpl. discriminate.
Defined.

(** ** Dotted names *)

Lemma split_dot_not_nil (s : string) : split_dot s <> [].
Proof.
  destruct s as [| c s]; simpl; [discriminate |].
  destruct (Ascii.eqb c dot); [discriminate |].
  destruct (split_dot s); discriminate.
Qed.

Lemma split_dot_no_dot (s : string) :
  Forall (fun w => no_dot w = true) (split_dot s).
Proof.
  induction s as [| c s IH]; simpl.
  - repeat constructor.
  - destruct (Ascii.eqb c dot) eqn:E.
    + constructor; trivial.
    + destruct (split_dot s) as [| w ws]; inversion IH; subst;
        constructor; simpl; trivial; now rewrite E.
Qed.

Lemma Sep_cons (a : string) (l : list string) :
  l <> [] -> Sep (a :: l) = a ++ "." ++ Sep l.
Proof. destruct l; [congruence | reflexivity]. Qed.

Lemma Sep_split_dot (s : string) : Sep (split_dot s) = s.
Proof.
  induction s as [| c s IH]; simpl; trivial.
  destruct (Ascii.eqb_spec c dot) as [-> | Hc].
  - rewrite Sep_cons by apply split_dot_not_nil. simpl. now rewrite IH.
  - pose proof (split_dot_not_nil s) as Hne.
    destruct (split_dot s) as [| w ws]; [congruence |].
    destruct ws as [| w' ws].
    + simpl in *. now rewrite IH.
    + change (Sep (String c w :: w' :: ws))
        with (String c (w ++ "." ++ Sep (w' :: ws))).
      now rewrite <- IH.
Qed.

Lemma split_dot_app (w s : string) :
  no_dot w = true ->
  split_dot (w ++ "." ++ s) = w :: split_dot s.
Proof.
  induction w as [| c w IH]; simpl; intros Hw; trivial.
  apply andb_prop in Hw. destruct Hw as [Hc Hw].
  apply negb_true_iff in Hc. rewrite Hc.
  simpl in IH. now rewrite IH.
Qed.

Lemma split_dot_word (w : string) : no_dot w = true -> split_dot w = [w].
Proof.
  induction w as [| c w IH]; simpl; intros Hw; trivial.
  apply andb_prop in Hw. destruct Hw as [Hc Hw].
  apply negb_true_iff in Hc. now rewrite Hc, IH.
Qed.

Lemma split_dot_Sep (l : list string) :
  l <> [] -> Forall (fun w => no_dot w = true) l -> split_dot (Sep l) = l.
Proof.
  induction l as [| a l IH]; [congruence |]. intros _ Hl.
  inversion Hl as [| ? ? Ha Hl']; subst.
  destruct l as [| b l].
  - now apply split_dot_word.
  - rewrite Sep_cons by discriminate.
    rewrite split_dot_app by trivial. f_equal. now apply IH.
Qed.

(** The leading components of a split name split back into themselves. *)
Lemma split_dot_prefix (s : string) (pre post : list string) :
  split_dot s = (pre ++ post)%list -> pre <> [] ->
  split_dot (Sep pre) = pre.
Proof.
  intros Hs Hpre. apply split_dot_Sep; trivial.
  pose proof (split_dot_no_dot s) as H. rewrite Hs in H.
  now apply Forall_app in H.
Qed.

(** ** Tables with auto-increment keys *)

Section Table_facts.
Context {Row : Type} (id : Row -> Z).
Implicit Types (table : list Row) (r : Row).

Lemma next_id_above table r : In r table -> id r < next_id id table.
Proof.
  unfold next_id. induction table as [| x xs IH]; cbn [fold_right In];
    [tauto |].
  intros [-> | Hin]; [lia |]. specialize (IH Hin). lia.
Qed.


Lemma filter_none (f : Row -> bool) table :
  (forall r, In r table -> f r = false) -> filter f table = [].
Proof.
  induction table as [| x xs IH]; simpl; intros H; trivial.
  rewrite (H x) by now left. apply IH. intros r Hr. apply H. now right.
Qed.


Lemma filter_id_new table r :
  id r = next_id id table ->
  filter (fun x => id x =? next_id id table) (table ++ [r]) = [r].
Proof.
  intros Hr. rewrite filter_app, filter_none; simpl.
  - now rewrite Hr, Z.eqb_refl.
  - intros y Hy. apply Z.eqb_neq. pose proof (next_id_above _ _ Hy). lia.
Qed.



End Table_facts.

(** ** The lookups, equation by equation *)














(** ** What a constructor that returns has checked *)

Lemma Owner_init_Ok (n d : string) (i t : option Z) (v : value) :
  Owner_init n d i t = Ok v <->
  v = VOwner n d i t /\ Group_init n d = Ok tt.
Proof.
  unfold Owner_init.
  destruct (Group_init n d) as [[] | e]; cbn [bind]; split.
  - intros [= <-]. auto.
  - intros [-> _]. trivial.
  - discriminate.
  - intros [_ [=]].
Qed.

Lemma Project_init_Ok (n d : string) (o : value) (i t : option Z) (v : value) :
  Project_init n d o i t = Ok v <->
  v = VProject n d o i t /\ truthy o = true /\ isinstance o Owner = true
  /\ Group_init n d = Ok tt.
Proof.
  unfold Project_init.
  destruct (truthy o), (isinstance o Owner),
    (Group_init n d) as [[] | e]; cbn [bind]; split;
    try discriminate; try (intros [= <-]; auto);
    try (intros (-> & ? & ? & ?); trivial; discriminate).
Qed.

Lemma System_init_Ok (n d : string) (p : value) (i t : option Z) (v : value) :
  System_init n d p i t = Ok v <->
  v = VSystem n d p i t /\ truthy p = true /\ isinstance p Project = true
  /\ Group_init n d = Ok tt.
Proof.
  unfold System_init.
  destruct (truthy p), (isinstance p Project),
    (Group_init n d) as [[] | e]; cbn [bind]; split;
    try discriminate; try (intros [= <-]; auto);
    try (intros (-> & ? & ? & ?); trivial; discriminate).
Qed.

Lemma Device_init_Ok (n d : string) (s : value) (u : string) (m : value)
    (i t : option Z) (v : value) :
  Device_init n d s u m i t = Ok v <->
  v = VDevice n d s u m i t /\ truthy s = true /\ isinstance s System = true
  /\ u <> "" /\ len u <= 255 /\ truthy m = true /\ Group_init n d = Ok tt.
Proof.
  unfold Device_init.
  destruct (truthy s), (isinstance s System), (String.eqb_spec u ""),
    (Z.ltb_spec 255 (len u)), (truthy m),
    (Group_init n d) as [[] | err]; cbn [bind negb]; split;
    try discriminate; try (intros [= <-]; repeat split; auto; lia);
    try (intros (-> & ? & ? & ? & ? & ? & ?); trivial;
         try discriminate; try contradiction; lia).
Qed.

Lemma Sensor_init_Ok (n d : string) (dev u : value) (i t : option Z)
    (v : value) :
  Sensor_init n d dev u i t = Ok v <->
  v = VSensor n d dev u i t /\ truthy dev = true
  /\ isinstance dev Device = true /\ truthy u = true
  /\ Group_init n d = Ok tt.
Proof.
  unfold Sensor_init.
  destruct (truthy dev), (isinstance dev Device), (truthy u),
    (Group_init n d) as [[] | e]; cbn [bind]; split;
    try discriminate; try (intros [= <-]; auto);
    try (intros (-> & ? & ? & ? & ?); trivial; discriminate).
Qed.

(** A constructor never returns [None]. *)
Lemma init_truthy (v : value) :
  (forall n d i t, Owner_init n d i t = Ok v -> truthy v = true)
  /\ (forall n d o i t, Project_init n d o i t = Ok v -> truthy v = true)
  /\ (forall n d p i t, System_init n d p i t = Ok v -> truthy v = true)
  /\ (forall n d u i t, Manufacturer_init n d u i t = Ok v -> truthy v = true)
  /\ (forall n d s u m i t,
        Device_init n d s u m i t = Ok v -> truthy v = true)
  /\ (forall s l d i, Units_init s l d i = Ok v -> truthy v = true)
  /\ (forall n d dev u i t,
        Sensor_init n d dev u i t = Ok v -> truthy v = true).
Proof.
  repeat split; intros.
  - apply Owner_init_Ok in H. now destruct H as [-> _].
  - apply Project_init_Ok in H. now destruct H as [-> _].
  - apply System_init_Ok in H. now destruct H as [-> _].
  - unfold Manufacturer_init in H.
    destruct (negb _); [| discriminate].
    destruct (negb _); [| discriminate].
    destruct (Group_init n d); [| discriminate].
    now injection H as <-.
  - apply Device_init_Ok in H. now destruct H as [-> _].
  - unfold Units_init in H.
    repeat (destruct (negb _); [| discriminate]).
    now injection H as <-.
  - apply Sensor_init_Ok in H. now destruct H as [-> _].
Qed.

Lemma sql_ID_Some (v : value) (i : Z) :
  attr_ID v = Ok (Some i) -> sql_ID v = Ok i.
Proof. intros H. unfold sql_ID. now rewrite H. Qed.

(** ** A lookup by name returns the entity of that name *)



Lemma app_assoc_string (a b c : string) : (a ++ b) ++ c = a ++ (b ++ c).
Proof.
  induction a as [| x a IH]; simpl; trivial. now rewrite IH.
Qed.

Lemma Sep_snoc (l : list string) (x : string) :
  l <> [] -> Sep (l ++ [x]) = Sep l ++ "." ++ x.
Proof.
  induction l as [| a l IH]; [congruence |]. intros _.
  destruct l as [| b l]; [reflexivity |].
  change ((a :: b :: l) ++ [x])%list with (a :: ((b :: l) ++ [x]))%list.
  rewrite Sep_cons by (simpl; discriminate).
  rewrite IH by discriminate.
  rewrite (Sep_cons a (b :: l)) by discriminate.
  now rewrite !app_assoc_string.
Qed.





(** ** Missing ancestors and missing leaves *)










(** ** Lookups read the tables of their own level and above *)







(** ** What the lookup of a missing entity has established *)


Lemma of_row_truthy (db : Database) (v : value) :
  (forall row, Owner_of_row row = Ok v -> truthy v = true)
  /\ (forall row, Project_of_row db row = Ok v -> truthy v = true)
  /\ (forall row, System_of_row db row = Ok v -> truthy v = true)
  /\ (forall row, Manufacturer_of_row row = Ok v -> truthy v = true)
  /\ (forall row, Device_of_row db row = Ok v -> truthy v = true)
  /\ (forall row, Units_of_row row = Ok v -> truthy v = true)
  /\ (forall row, Sensor_of_row db row = Ok v -> truthy v = true).
Proof.
  destruct (init_truthy v) as (HO & HP & HS & HM & HD & HU & HN).
  repeat split; intros row H.
  - eapply HO, H.
  - unfold Project_of_row in H.
    destruct (GetOwner _ _ _); [eapply HP, H | discriminate].
  - unfold System_of_row in H.
    destruct (GetProject _ _ _); [eapply HS, H | discriminate].
  - eapply HM, H.
  - unfold Device_of_row in H.
    destruct (GetSystem _ _ _); [| discriminate].
    destruct (GetManufacturer _ _ _); [eapply HD, H | discriminate].
  - eapply HU, H.
  - unfold Sensor_of_row in H.
    destruct (GetDevice _ _ _); [| discriminate].
    destruct (GetUnits _ _ _); [eapply HN, H | discriminate].
Qed.



(** ** The creation commands, step by step *)




Lemma CreateNewOwner_run (db : Database) (name desc : string) (dup : value) :
  GetOwner db name None = Ok dup -> truthy dup = false ->
  CreateNewOwner name desc db
  = (Owner_init name desc (Some (next_id ownerID (tOwners db)))
       (Some (clock db)),
     snd (Insert_Owners name desc db)).
Proof.
  intros HG Ht. unfold CreateNewOwner, bindM, query. rewrite HG, Ht.
  cbn [Insert_Owners snd tOwners]. rewrite Select_by_id.
  rewrite filter_id_new by reflexivity. reflexivity.
Qed.

Lemma CreateNewManufacturer_run (db : Database) (name desc URL : string)
    (dup : value) :
  GetManufacturer db name None = Ok dup -> truthy dup = false ->
  CreateNewManufacturer name desc URL db
  = (Manufacturer_init name desc URL
       (Some (next_id mfgID (tManufacturers db))) (Some (clock db)),
     snd (Insert_Manufacturers name desc URL db)).
Proof.
  intros HG Ht. unfold CreateNewManufacturer, bindM, query. rewrite HG, Ht.
  cbn [Insert_Manufacturers snd tManufacturers]. rewrite Select_by_id.
  rewrite filter_id_new by reflexivity. reflexivity.
Qed.

Lemma CreateNewUnits_run (db : Database) (short long desc : string)
    (dup : value) :
  GetUnits db long None = Ok dup -> truthy dup = false ->
  CreateNewUnits short long desc db
  = (Units_init short long desc (Some (next_id unitID (tUnits db))),
     snd (Insert_Units short long desc db)).
Proof.
  intros HG Ht. unfold CreateNewUnits, bindM, query. rewrite HG, Ht.
  reflexivity.
Qed.

Lemma CreateNewProject_run (db : Database) (name desc o p : string)
    (dup owner : value) (oid : Z) :
  split_dot name = [o; p] ->
  GetProject db name None = Ok dup -> truthy dup = false ->
  GetOwner db o None = Ok owner -> sql_ID owner = Ok oid ->
  CreateNewProject name desc db
  = (Project_init p desc owner (Some (next_id projID (tProjects db)))
       (Some (clock db)),
     snd (Insert_Projects p desc oid db)).
Proof.
  intros Hs HG Ht HO HI. unfold CreateNewProject, bindM, query.
  rewrite Hs, HG, Ht, HO, HI.
  cbn [Insert_Projects snd tProjects]. rewrite Select_by_id.
  rewrite filter_id_new by reflexivity. reflexivity.
Qed.

Lemma CreateNewSystem_run (db : Database) (name desc o p s : string)
    (dup project : value) (pid : Z) :
  split_dot name = [o; p; s] ->
  GetSystem db name None = Ok dup -> truthy dup = false ->
  GetProject db (Sep [o; p]) None = Ok project -> sql_ID project = Ok pid ->
  CreateNewSystem name desc db
  = (System_init s desc project (Some (next_id sysID (tSystems db)))
       (Some (clock db)),
     snd (Insert_Systems s desc pid db)).
Proof.
  intros Hs HG Ht HP HI. unfold CreateNewSystem, bindM, query.
  rewrite Hs, HG, Ht, HP, HI.
  cbn [Insert_Systems snd tSystems]. rewrite Select_by_id.
  rewrite filter_id_new by reflexivity. reflexivity.
Qed.

Lemma CreateNewDevice_run (db : Database) (name desc URL o p s d : string)
    (mfg dup system : value) (mid sid : Z) :
  split_dot name = [o; p; s; d] ->
  truthy mfg = true ->
  GetDevice db name None = Ok dup -> truthy dup = false ->
  GetSystem db (Sep [o; p; s]) None = Ok system ->
  sql_ID mfg = Ok mid -> sql_ID system = Ok sid ->
  CreateNewDevice name desc URL mfg db
  = (Device_init d desc system URL mfg
       (Some (next_id devID (tDevices db))) (Some (clock db)),
     snd (Insert_Devices d desc URL mid sid db)).
Proof.
  intros Hs Hm HG Ht HP HM HI. unfold CreateNewDevice.
  rewrite Hs, Hm. cbn [negb]. unfold bindM, query.
  rewrite HG, Ht, HP, HM, HI.
  cbn [Insert_Devices snd tDevices]. rewrite Select_by_id.
  rewrite filter_id_new by reflexivity. reflexivity.
Qed.

Lemma CreateNewSensor_run (db : Database) (name desc o p s d n : string)
    (units dup device : value) (did uid : Z) :
  split_dot name = [o; p; s; d; n] ->
  truthy units = true ->
  GetSensor db name None = Ok dup -> truthy dup = false ->
  GetDevice db (Sep [o; p; s; d]) None = Ok device ->
  sql_ID device = Ok did -> sql_ID units = Ok uid ->
  CreateNewSensor name desc units db
  = (Sensor_init n desc device units
       (Some (next_id senID (tSensors db))) (Some (clock db)),
     snd (Insert_Sensors n desc did uid db)).
Proof.
  intros Hs Hu HG Ht HP HI HU. unfold CreateNewSensor.
  rewrite Hs, Hu. cbn [negb]. unfold bindM, query.
  rewrite HG, Ht, HP, HI, HU.
  cbn [Insert_Sensors snd tSensors]. rewrite Select_by_id.
  rewrite filter_id_new by reflexivity. reflexivity.
Qed.







(** ** Insertion keeps the keys well formed *)




Lemma attr_ID_truthy (v : value) (i : option Z) :
  attr_ID v = Ok i -> truthy v = true.
Proof. destruct v; trivial; discriminate. Qed.


(** ** Creation followed by lookup *)








Example C1_project_on_fresh_store :
  let db1 := snd (Create (NewOwner "lab" "the lab") (empty_db false 7)) in
  exists e db' e',
    Create (NewProject "lab.edm" "a project") db1 = (Ok e, db')
    /\ Get Project db' "lab.edm" None = Ok e'
    /\ Nomenclature e' = Ok "lab.edm".
Proof.
  do 3 eexists. repeat split.
Qed.

Example StandardDeviation_example :
  RecordSet.StandardDeviation three_set = Ok (Float 10).
Proof.
  unfold RecordSet.StandardDeviation.
  rewrite (Variance_spec three_records three_set eq_refl). cbn [bind].
  change (RecordSet.N three_set) with 3. change (3 - 1) with 2.
  unfold truediv. change (2 =? 0) with false. cbn [bind].
  replace (population_variance (map rec_data three_records) * 3 / 2)%R
    with (10 * 10)%R.
  - unfold pow_half. destruct (Rle_dec 0 (10 * 10)) as [_ | Hneg].
    + do 2 f_equal. apply sqrt_square. lra.
    + exfalso. apply Hneg. lra.
  - unfold population_variance, arithmetic_mean. simpl. field.
Qed.

(** * Further properties of the repository *)

(** ** What a lookup can return *)

Lemma Get_None_or_truthy (c : class) (db : Database) (n : string)
    (i : option Z) (v : value) :
  Get c db n i = Ok v -> v = VNone \/ truthy v = true.
Proof.
  destruct (of_row_truthy db v) as (HO & HP & HS & HM & HD & HU & HN).
  destruct c; cbn [Get]; intros H.
  - unfold GetOwner in H.
    destruct (if_ID _ _ _) as [| row rest];
      [left; now injection H | right; now apply (HO row)].
  - unfold GetProject in H.
    destruct (if_ID _ _ _) as [[| row rest] |]; cbn [bind] in H;
      [left; now injection H | right; now apply (HP row) | discriminate].
  - unfold GetSystem in H.
    destruct (if_ID _ _ _) as [[| row rest] |]; cbn [bind] in H;
      [left; now injection H | right; now apply (HS row) | discriminate].
  - unfold GetManufacturer in H.
    destruct (if_ID _ _ _) as [| row rest];
      [left; now injection H | right; now apply (HM row)].
  - unfold GetDevice in H.
    destruct (if_ID _ _ _) as [[| row rest] |]; cbn [bind] in H;
      [left; now injection H | right; now apply (HD row) | discriminate].
  - unfold GetUnits in H.
    destruct (if_ID _ _ _) as [| row rest];
      [left; now injection H | right; now apply (HU row)].
  - unfold GetSensor in H.
    destruct (if_ID _ _ _) as [[| row rest] |]; cbn [bind] in H;
      [left; now injection H | right; now apply (HN row) | discriminate].
Qed.

Lemma Get_falsy (c : class) (db : Database) (n : string) (i : option Z)
    (v : value) :
  Get c db n i = Ok v -> truthy v = false -> v = VNone.
Proof.
  intros H Hf. destruct (Get_None_or_truthy _ _ _ _ _ H) as [-> | Ht];
    [trivial | congruence].
Qed.

(** ** How a creation runs *)

Ltac stop_inv :=
  left; split; [reflexivity | eexists; reflexivity].

Lemma Create_inv (a : creation) (db : Database) (r : res value)
    (db' : Database) :
  Create a db = (r, db') ->
  (db' = db /\ exists e, r = Raise e) \/ ran a db r db'.
Proof.
  destruct a as [name desc | name desc | name desc | name desc URL
                | name desc URL mfg | short long desc | name desc units];
    cbn [Create ran]; intros H.
  - destruct (GetOwner db name None) as [dup | e] eqn:HG;
      [destruct (truthy dup) eqn:Ht |].
    + unfold CreateNewOwner, bindM, query in H. rewrite HG, Ht in H.
      injection H as <- <-. stop_inv.
    + rewrite (CreateNewOwner_run _ _ _ _ HG Ht) in H. injection H as <- <-.
      right. assert (dup = VNone) as -> by exact (Get_falsy Owner _ _ _ _ HG Ht).
      repeat split; trivial.
    + unfold CreateNewOwner, bindM, query in H. rewrite HG in H.
      injection H as <- <-. stop_inv.
  - destruct (split_dot name) as [| o [| p [| ? ?]]] eqn:Hs;
      try (unfold CreateNewProject in H; rewrite Hs in H;
           injection H as <- <-; stop_inv).
    destruct (GetProject db name None) as [dup | e] eqn:HG;
      [destruct (truthy dup) eqn:Ht;
       [| destruct (GetOwner db o None) as [owner | e] eqn:HO;
          [destruct (sql_ID owner) as [oid | e] eqn:HI |]] |];
      try (rewrite (CreateNewProject_run _ _ _ _ _ _ _ _ Hs HG Ht HO HI) in H;
           injection H as <- <-; right;
           assert (dup = VNone) as -> by exact (Get_falsy Project _ _ _ _ HG Ht);
           exists o, p, owner, oid; repeat split; trivial);
      unfold CreateNewProject, bindM, query in H;
      rewrite Hs, HG, ?Ht, ?HO, ?HI in H; injection H as <- <-; stop_inv.
  - destruct (split_dot name) as [| o [| p [| s [| ? ?]]]] eqn:Hs;
      try (unfold CreateNewSystem in H; rewrite Hs in H;
           injection H as <- <-; stop_inv).
    destruct (GetSystem db name None) as [dup | e] eqn:HG;
      [destruct (truthy dup) eqn:Ht;
       [| destruct (GetProject db (Sep [o; p]) None) as [parent | e] eqn:HO;
          [destruct (sql_ID parent) as [pid | e] eqn:HI |]] |];
      try (rewrite (CreateNewSystem_run _ _ _ _ _ _ _ _ _ Hs HG Ht HO HI)
             in H;
           injection H as <- <-; right;
           assert (dup = VNone) as -> by exact (Get_falsy System _ _ _ _ HG Ht);
           exists o, p, s, parent, pid; repeat split; trivial);
      unfold CreateNewSystem, bindM, query in H;
      rewrite Hs, HG, ?Ht, ?HO, ?HI in H; injection H as <- <-; stop_inv.
  - destruct (GetManufacturer db name None) as [dup | e] eqn:HG;
      [destruct (truthy dup) eqn:Ht |].
    + unfold CreateNewManufacturer, bindM, query in H. rewrite HG, Ht in H.
      injection H as <- <-. stop_inv.
    + rewrite (CreateNewManufacturer_run _ _ _ _ _ HG Ht) in H.
      injection H as <- <-.
      right. assert (dup = VNone) as -> by exact (Get_falsy Manufacturer _ _ _ _ HG Ht).
      repeat split; trivial.
    + unfold CreateNewManufacturer, bindM, query in H. rewrite HG in H.
      injection H as <- <-. stop_inv.
  - destruct (split_dot name) as [| o [| p [| s [| d [| ? ?]]]]] eqn:Hs;
      try (unfold CreateNewDevice in H; rewrite Hs in H;
           injection H as <- <-; stop_inv).
    destruct (truthy mfg) eqn:Hm.
    2:{ unfold CreateNewDevice in H. rewrite Hs, Hm in H.
        injection H as <- <-. stop_inv. }
    destruct (GetDevice db name None) as [dup | e] eqn:HG;
      [destruct (truthy dup) eqn:Ht;
       [| destruct (GetSystem db (Sep [o; p; s]) None)
            as [parent | e] eqn:HO;
          [destruct (sql_ID mfg) as [mid | e] eqn:HM;
           [destruct (sql_ID parent) as [pid | e] eqn:HI |] |]] |];
      try (rewrite (CreateNewDevice_run _ _ _ _ _ _ _ _ _ _ _ _ _
                      Hs Hm HG Ht HO HM HI) in H;
           injection H as <- <-; right;
           assert (dup = VNone) as -> by exact (Get_falsy Device _ _ _ _ HG Ht);
           exists o, p, s, d, parent, mid, pid; repeat split; trivial);
      unfold CreateNewDevice in H; rewrite Hs, Hm in H; cbn [negb] in H;
      unfold bindM, query in H; rewrite HG, ?Ht, ?HO, ?HM, ?HI in H;
      injection H as <- <-; stop_inv.
  - destruct (GetUnits db long None) as [dup | e] eqn:HG;
      [destruct (truthy dup) eqn:Ht |].
    + unfold CreateNewUnits, bindM, query in H. rewrite HG, Ht in H.
      injection H as <- <-. stop_inv.
    + rewrite (CreateNewUnits_run _ _ _ _ _ HG Ht) in H.
      injection H as <- <-.
      right. assert (dup = VNone) as -> by exact (Get_falsy Units _ _ _ _ HG Ht).
      repeat split; trivial.
    + unfold CreateNewUnits, bindM, query in H. rewrite HG in H.
      injection H as <- <-. stop_inv.
  - destruct (split_dot name) as [| o [| p [| s [| d [| n [| ? ?]]]]]] eqn:Hs;
      try (unfold CreateNewSensor in H; rewrite Hs in H;
           injection H as <- <-; stop_inv).
    destruct (truthy units) eqn:Hu.
    2:{ unfold CreateNewSensor in H. rewrite Hs, Hu in H.
        injection H as <- <-. stop_inv. }
    destruct (GetSensor db name None) as [dup | e] eqn:HG;
      [destruct (truthy dup) eqn:Ht;
       [| destruct (GetDevice db (Sep [o; p; s; d]) None)
            as [parent | e] eqn:HO;
          [destruct (sql_ID parent) as [pid | e] eqn:HI;
           [destruct (sql_ID units) as [uid | e] eqn:HU |] |]] |];
      try (rewrite (CreateNewSensor_run _ _ _ _ _ _ _ _ _ _ _ _ _
                      Hs Hu HG Ht HO HI HU) in H;
           injection H as <- <-; right;
           assert (dup = VNone) as -> by exact (Get_falsy Sensor _ _ _ _ HG Ht);
           exists o, p, s, d, n, parent, pid, uid; repeat split; trivial);
      unfold CreateNewSensor in H; rewrite Hs, Hu in H; cbn [negb] in H;
      unfold bindM, query in H; rewrite HG, ?Ht, ?HO, ?HI, ?HU in H;
      injection H as <- <-; stop_inv.
Qed.













(** ** Lookups in a store that has grown *)

















(** ** Names that stay free *)















(** ** Two creations in a row *)






(** ** What a lookup hands out *)



Lemma within_iff (bound : Z) (s : string) :
  within bound s = true <-> s <> "" /\ len s <= bound.
Proof.
  unfold within. destruct (String.eqb_spec s ""), (Z.leb_spec (len s) bound);
    cbn; split; try tauto; try discriminate; intros []; try tauto; lia.
Qed.

Lemma Group_init_within (n d : string) :
  Group_init n d = Ok tt -> within 12 n = true /\ within 255 d = true.
Proof.
  intros H. apply Group_init_Ok in H. destruct H as (? & ? & ? & ?).
  split; apply within_iff; auto.
Qed.

Lemma Manufacturer_init_Ok (n d u : string) (i t : option Z) (v : value) :
  Manufacturer_init n d u i t = Ok v ->
  v = VManufacturer n d u i t /\ u <> "" /\ len u <= 255
  /\ Group_init n d = Ok tt.
Proof.
  unfold Manufacturer_init.
  destruct (String.eqb_spec u ""); cbn [negb]; [discriminate |].
  destruct (Z.ltb_spec 255 (len u)); cbn [negb]; [discriminate |].
  destruct (Group_init n d) as [[] |]; cbn [bind]; [| discriminate].
  intros [= <-]. repeat split; trivial.
Qed.

Lemma Units_init_Ok (s l d : string) (i : option Z) (v : value) :
  Units_init s l d i = Ok v ->
  v = VUnits s l d i /\ within 25 s = true /\ within 255 l = true
  /\ within 255 d = true.
Proof.
  unfold Units_init, within.
  destruct (String.eqb_spec s ""), (String.eqb_spec l ""),
    (String.eqb_spec d ""); cbn [negb orb]; try discriminate.
  destruct (Z.ltb_spec 25 (len s)); cbn [negb]; [discriminate |].
  destruct (Z.ltb_spec 255 (len l)); cbn [negb]; [discriminate |].
  destruct (Z.ltb_spec 255 (len d)); cbn [negb]; [discriminate |].
  intros [= <-]. repeat split; trivial; cbn; apply Z.leb_le; lia.
Qed.

Ltac and_true :=
  repeat match goal with
         | |- (_ && _) = true => apply andb_true_intro; split
         end;
  trivial.

Lemma well_formed_Owner (db : Database) (n : string) (i : option Z)
    (v : value) :
  GetOwner db n i = Ok v -> truthy v = true ->
  well_formed v = true /\ isinstance v Owner = true.
Proof.
  intros H Ht. unfold GetOwner in H.
  destruct (if_ID _ _ _) as [| row rest];
    [injection H as <-; discriminate |].
  apply Owner_init_Ok in H. destruct H as (-> & HG).
  apply Group_init_within in HG. destruct HG. split; trivial.
  cbn [well_formed]. and_true.
Qed.

Lemma well_formed_Manufacturer (db : Database) (n : string) (i : option Z)
    (v : value) :
  GetManufacturer db n i = Ok v -> truthy v = true ->
  well_formed v = true /\ isinstance v Manufacturer = true.
Proof.
  intros H Ht. unfold GetManufacturer in H.
  destruct (if_ID _ _ _) as [| row rest];
    [injection H as <-; discriminate |].
  apply Manufacturer_init_Ok in H. destruct H as (-> & Hu & Hl & HG).
  apply Group_init_within in HG. destruct HG. split; trivial.
  cbn [well_formed]. and_true. apply within_iff. auto.
Qed.

Lemma well_formed_Units (db : Database) (n : string) (i : option Z)
    (v : value) :
  GetUnits db n i = Ok v -> truthy v = true ->
  well_formed v = true /\ isinstance v Units = true.
Proof.
  intros H Ht. unfold GetUnits in H.
  destruct (if_ID _ _ _) as [| row rest];
    [injection H as <-; discriminate |].
  apply Units_init_Ok in H. destruct H as (-> & ? & ? & ?). split; trivial.
  cbn [well_formed]. and_true.
Qed.

Lemma well_formed_Project (db : Database) (n : string) (i : option Z)
    (v : value) :
  GetProject db n i = Ok v -> truthy v = true ->
  well_formed v = true /\ isinstance v Project = true.
Proof.
  intros H Ht. unfold GetProject in H.
  destruct (if_ID _ _ _) as [[| row rest] |]; cbn [bind] in H;
    [injection H as <-; discriminate | | discriminate].
  destruct (GetOwner db "" _) as [o |] eqn:E; [| discriminate].
  cbn [bind] in H. apply Project_init_Ok in H.
  destruct H as (-> & Ho & Hc & HG).
  apply Group_init_within in HG. destruct HG.
  destruct (well_formed_Owner _ _ _ _ E Ho). split; trivial.
  cbn [well_formed]. and_true.
Qed.

Lemma well_formed_System (db : Database) (n : string) (i : option Z)
    (v : value) :
  GetSystem db n i = Ok v -> truthy v = true ->
  well_formed v = true /\ isinstance v System = true.
Proof.
  intros H Ht. unfold GetSystem in H.
  destruct (if_ID _ _ _) as [[| row rest] |]; cbn [bind] in H;
    [injection H as <-; discriminate | | discriminate].
  destruct (GetProject db "" _) as [o |] eqn:E; [| discriminate].
  cbn [bind] in H. apply System_init_Ok in H.
  destruct H as (-> & Ho & Hc & HG).
  apply Group_init_within in HG. destruct HG.
  destruct (well_formed_Project _ _ _ _ E Ho). split; trivial.
  cbn [well_formed]. and_true.
Qed.

Lemma well_formed_Device (db : Database) (n : string) (i : option Z)
    (v : value) :
  GetDevice db n i = Ok v -> truthy v = true ->
  well_formed v = true /\ isinstance v Device = true.
Proof.
  intros H Ht. unfold GetDevice in H.
  destruct (if_ID _ _ _) as [[| row rest] |]; cbn [bind] in H;
    [injection H as <-; discriminate | | discriminate].
  destruct (GetSystem db "" _) as [o |] eqn:E; [| discriminate].
  cbn [bind] in H.
  destruct (GetManufacturer db "" _) as [m |] eqn:Em; [| discriminate].
  cbn [bind] in H. apply Device_init_Ok in H.
  destruct H as (-> & Ho & Hc & Hu & Hl & Hm & HG).
  apply Group_init_within in HG. destruct HG.
  destruct (well_formed_System _ _ _ _ E Ho).
  destruct (well_formed_Manufacturer _ _ _ _ Em Hm). split; trivial.
  cbn [well_formed]. and_true. apply within_iff. auto.
Qed.

Lemma well_formed_Sensor (db : Database) (n : string) (i : option Z)
    (v : value) :
  GetSensor db n i = Ok v -> truthy v = true ->
  well_formed v = true /\ isinstance v Sensor = true.
Proof.
  intros H Ht. unfold GetSensor in H.
  destruct (if_ID _ _ _) as [[| row rest] |]; cbn [bind] in H;
    [injection H as <-; discriminate | | discriminate].
  destruct (GetDevice db "" _) as [o |] eqn:E; [| discriminate].
  cbn [bind] in H.
  destruct (GetUnits db "" _) as [u |] eqn:Eu; [| discriminate].
  cbn [bind] in H. apply Sensor_init_Ok in H.
  destruct H as (-> & Ho & Hc & Hu & HG).
  apply Group_init_within in HG. destruct HG.
  destruct (well_formed_Device _ _ _ _ E Ho).
  destruct (well_formed_Units _ _ _ _ Eu Hu). split; trivial.
  cbn [well_formed]. and_true.
Qed.

(** X8. Whatever the store holds, an object that a lookup returns is of
    the class asked for, its text fields are within the bounds of the
    model, and the same holds of every object it refers to: the parent
    chain up to the owner, the manufacturer of a device, the units of a
    sensor, each of the class its place asks for. *)
Theorem lookups_return_well_formed_objects :
  forall (c : class) (db : Database) (name : string) (ID : option Z)
         (v : value),
    Get c db name ID = Ok v -> truthy v = true ->
    well_formed v = true /\ isinstance v c = true.
Proof.
  intros c db name ID v.
  destruct c; cbn [Get].
  - apply well_formed_Owner.
  - apply well_formed_Project.
  - apply well_formed_System.
  - apply well_formed_Manufacturer.
  - apply well_formed_Device.
  - apply well_formed_Units.
  - apply well_formed_Sensor.
Qed.

Lemma lookups_return_well_formed_objects_witness :
  well_formed lab_sensor = true /\ isinstance lab_sensor Sensor = true.
Proof.
  apply (lookups_return_well_formed_objects Sensor sample_db
           "lab.edm.vac.gauge.p1" None lab_sensor); reflexivity.
Defined.

(** ** Lists *)

Lemma Select_all {Row : Type} (table : list Row) :
  Select table None [] = table.
Proof.
  unfold Select, where_. cbn [forallb].
  induction table as [| r t IH]; cbn [filter]; [trivial | now rewrite IH].
Qed.

Lemma Select_by_parent {Row : Type} (table : list Row) (pid : Row -> Z)
    (i : Z) :
  Select table None [(int_col pid, EQ (SqlInt i))]
  = filter (fun r => pid r =? i) table.
Proof. apply Select_by_id. Qed.

Lemma build_all_length {Row : Type} (build : Row -> res value)
    (rows : list Row) (l : list value) :
  build_all build rows = Ok l -> List.length l = List.length rows.
Proof.
  revert l. induction rows as [| r rows IH]; cbn [build_all]; intros l H.
  - now injection H as <-.
  - destruct (build r) as [v |]; [| discriminate]. cbn [bind] in H.
    destruct (build_all build rows) as [l' |]; [| discriminate].
    injection H as <-. cbn. now rewrite (IH l').
Qed.

Lemma build_all_Forall {Row : Type} (build : Row -> res value)
    (P : value -> Prop) (rows : list Row) (l : list value) :
  (forall r v, build r = Ok v -> P v) ->
  build_all build rows = Ok l -> Forall P l.
Proof.
  intros HP. revert l.
  induction rows as [| r rows IH]; cbn [build_all]; intros l H.
  - injection H as <-. constructor.
  - destruct (build r) as [v |] eqn:E; [| discriminate]. cbn [bind] in H.
    destruct (build_all build rows) as [l' |]; [| discriminate].
    injection H as <-. constructor; eauto.
Qed.


Lemma list_or_None_spec {Row : Type} (rows : list Row)
    (build : Row -> res value) :
  (rows = [] -> list_or_None rows build = Ok None)
  /\ forall l, list_or_None rows build = Ok (Some l) ->
               build_all build rows = Ok l /\ rows <> [].
Proof.
  split.
  - now intros ->.
  - intros l H. destruct rows as [| r rows]; [discriminate |].
    unfold list_or_None in H.
    destruct (build_all build (r :: rows)) as [l' |]; [| discriminate].
    injection H as <-. split; [trivial | discriminate].
Qed.

(** The rows a list reads. *)
Lemma GetAll_rows (c : class) (db : Database) (parent : option Z) :
  match c with
  | Owner => GetAll c db parent = list_or_None (tOwners db) Owner_of_row
  | Project =>
      GetAll c db parent
      = list_or_None
          (if_ID parent
             (fun i => filter (fun r => proj_ownerID r =? i) (tProjects db))
             (tProjects db))
          (Project_of_row db)
  | System =>
      GetAll c db parent
      = list_or_None
          (if_ID parent
             (fun i => filter (fun r => sys_projID r =? i) (tSystems db))
             (tSystems db))
          (System_of_row db)
  | Manufacturer =>
      GetAll c db parent
      = list_or_None (tManufacturers db) Manufacturer_of_row
  | Device =>
      GetAll c db parent
      = list_or_None
          (if_ID parent
             (fun i => filter (fun r => dev_sysID r =? i) (tDevices db))
             (tDevices db))
          (Device_of_row db)
  | Units => GetAll c db parent = list_or_None (tUnits db) Units_of_row
  | Sensor =>
      GetAll c db parent
      = list_or_None
          (if_ID parent
             (fun i => filter (fun r => sen_devID r =? i) (tSensors db))
             (tSensors db))
          (Sensor_of_row db)
  end.
Proof.
  destruct c; cbn [GetAll];
    unfold GetOwners, GetProjects, GetSystems, GetManufacturers, GetDevices,
      GetAllUnits, GetSensors, if_ID;
    try (destruct parent as [k |]; [destruct (k =? 0) |]);
    now rewrite ?Select_all, ?Select_by_parent.
Qed.

(** What each lookup builds from a row is well formed. *)
Lemma of_row_well_formed (db : Database) (v : value) :
  (forall row, Owner_of_row row = Ok v ->
               well_formed v = true /\ isinstance v Owner = true)
  /\ (forall row, Project_of_row db row = Ok v ->
                  well_formed v = true /\ isinstance v Project = true)
  /\ (forall row, System_of_row db row = Ok v ->
                  well_formed v = true /\ isinstance v System = true)
  /\ (forall row, Manufacturer_of_row row = Ok v ->
                  well_formed v = true /\ isinstance v Manufacturer = true)
  /\ (forall row, Device_of_row db row = Ok v ->
                  well_formed v = true /\ isinstance v Device = true)
  /\ (forall row, Units_of_row row = Ok v ->
                  well_formed v = true /\ isinstance v Units = true)
  /\ (forall row, Sensor_of_row db row = Ok v ->
                  well_formed v = true /\ isinstance v Sensor = true).
Proof.
  repeat match goal with |- _ /\ _ => split end; intros row H.
  - apply Owner_init_Ok in H. destruct H as (-> & HG).
    apply Group_init_within in HG. destruct HG. split; trivial.
    cbn [well_formed]. and_true.
  - unfold Project_of_row in H.
    destruct (GetOwner db "" _) as [o |] eqn:E; [| discriminate].
    cbn [bind] in H. apply Project_init_Ok in H.
    destruct H as (-> & Ho & Hc & HG).
    apply Group_init_within in HG. destruct HG.
    destruct (well_formed_Owner _ _ _ _ E Ho). split; trivial.
    cbn [well_formed]. and_true.
  - unfold System_of_row in H.
    destruct (GetProject db "" _) as [o |] eqn:E; [| discriminate].
    cbn [bind] in H. apply System_init_Ok in H.
    destruct H as (-> & Ho & Hc & HG).
    apply Group_init_within in HG. destruct HG.
    destruct (well_formed_Project _ _ _ _ E Ho). split; trivial.
    cbn [well_formed]. and_true.
  - apply Manufacturer_init_Ok in H. destruct H as (-> & Hu & Hl & HG).
    apply Group_init_within in HG. destruct HG. split; trivial.
    cbn [well_formed]. and_true. apply within_iff. auto.
  - unfold Device_of_row in H.
    destruct (GetSystem db "" _) as [o |] eqn:E; [| discriminate].
    cbn [bind] in H.
    destruct (GetManufacturer db "" _) as [m |] eqn:Em; [| discriminate].
    cbn [bind] in H. apply Device_init_Ok in H.
    destruct H as (-> & Ho & Hc & Hu & Hl & Hm & HG).
    apply Group_init_within in HG. destruct HG.
    destruct (well_formed_System _ _ _ _ E Ho).
    destruct (well_formed_Manufacturer _ _ _ _ Em Hm). split; trivial.
    cbn [well_formed]. and_true. apply within_iff. auto.
  - apply Units_init_Ok in H. destruct H as (-> & ? & ? & ?). split; trivial.
    cbn [well_formed]. and_true.
  - unfold Sensor_of_row in H.
    destruct (GetDevice db "" _) as [o |] eqn:E; [| discriminate].
    cbn [bind] in H.
    destruct (GetUnits db "" _) as [u |] eqn:Eu; [| discriminate].
    cbn [bind] in H. apply Sensor_init_Ok in H.
    destruct H as (-> & Ho & Hc & Hu & HG).
    apply Group_init_within in HG. destruct HG.
    destruct (well_formed_Device _ _ _ _ E Ho).
    destruct (well_formed_Units _ _ _ _ Eu Hu). split; trivial.
    cbn [well_formed]. and_true.
Qed.

(** X9. A list is [None] when no row is listed, never an empty list; a
    list that is returned has one object per listed row, each of the class
    of the list and well formed. *)
Theorem lists_are_None_or_full :
  forall (c : class) (db : Database) (parent : option Z),
    (listed c db parent = 0%nat -> GetAll c db parent = Ok None)
    /\ forall l : list value,
         GetAll c db parent = Ok (Some l) ->
         List.length l = listed c db parent
         /\ l <> []
         /\ Forall (fun v => well_formed v = true /\ isinstance v c = true) l.
Proof.
  intros c db parent. pose proof (GetAll_rows c db parent) as HR.
  assert (Hlen : forall {Row : Type} (rows : list Row),
             List.length rows = 0%nat -> rows = []).
  { intros Row rows. now destruct rows. }
  assert (Hne : forall (l : list value) (n : nat),
             List.length l = n -> n <> 0%nat -> l <> []).
  { intros l n <- Hn ->. now apply Hn. }
  destruct c; rewrite HR; cbn [listed];
    match goal with
    | |- context [list_or_None ?rows ?build] =>
        destruct (list_or_None_spec rows build) as [Hnil Hsome]
    end;
    (split; [intros H0; apply Hnil; now apply Hlen |]);
    intros l H; destruct (Hsome l H) as [Hb Hrows];
    pose proof (build_all_length _ _ _ Hb) as HL;
    (split; [exact HL | split]).
  all: try (apply (Hne l _ HL); intros H0; apply Hrows; now apply Hlen).
  all: eapply build_all_Forall; [| exact Hb]; intros r v H';
    destruct (of_row_well_formed db v) as (A1 & A2 & A3 & A4 & A5 & A6 & A7);
    first [ exact (A1 _ H') | exact (A2 _ H') | exact (A3 _ H')
          | exact (A4 _ H') | exact (A5 _ H') | exact (A6 _ H')
          | exact (A7 _ H') ].
Qed.

Lemma lists_are_None_or_full_witness :
  GetAll Sensor sample_db (Some 7) = Ok None
  /\ (List.length [lab_project] = listed Project sample_db (Some 1)
      /\ [lab_project] <> []
      /\ Forall (fun v => well_formed v = true /\ isinstance v Project = true)
           [lab_project]).
Proof.
  split.
  - destruct (lists_are_None_or_full Sensor sample_db (Some 7)) as [H _].
    apply H. reflexivity.
  - destruct (lists_are_None_or_full Project sample_db (Some 1)) as [_ H].
    apply H. reflexivity.
Defined.





(** ** Measurements *)

(** The record set [GetRecords] builds for a sensor that carries a key. *)
Lemma GetRecords_run (db : Database) (sensor : value) (sid t0 t1 : Z) :
  attr_ID sensor = Ok (Some sid) ->
  GetRecords db sensor t0 t1
  = match order_by recDTG (filter (in_range sid t0 t1) (recTable db)) with
    | [] => Ok None
    | rows =>
        Ok (Some (RecordSet.mk (map (fun r => Some (recDTG r)) rows)
                    (map recData rows) (map recError rows) sensor
                    (Z.of_nat (List.length rows))))
    end.
Proof.
  intros HID. pose proof (attr_ID_truthy _ _ HID) as Ht.
  unfold GetRecords, sql_ID. rewrite Ht, HID. cbn [bind].
  rewrite Select_range.
  destruct (order_by recDTG _) as [| r rows]; trivial.
  rewrite build_records_Ok by trivial. cbn [bind].
  unfold RecordSet.init. rewrite !map_map, !length_map.
  cbn [map first_row bind rec_sensor rec_DTG rec_data rec_error].
  reflexivity.
Qed.

Lemma recTable_after_insert (db : Database) (y dy : R) (sid : Z) :
  recTable (snd (Insert_Records y dy sid db))
  = (recTable db
     ++ [mkRecRow y dy (clock db) (next_id recID (recTable db)) sid])%list.
Proof.
  unfold Insert_Records, recTable. now destruct (devmode db).
Qed.

(** How [RecordMeasurement] runs for a sensor that carries a key. *)
Lemma RecordMeasurement_run (db : Database) (sensor : value) (sid : Z)
    (y dy : R) :
  attr_ID sensor = Ok (Some sid) ->
  RecordMeasurement sensor y dy db
  = (Ok (mkRecord y dy sensor (Some (next_id recID (recTable db)))
           (Some (clock db))),
     snd (Insert_Records y dy sid db)).
Proof.
  intros HID. pose proof (attr_ID_truthy _ _ HID) as Ht.
  unfold RecordMeasurement. rewrite Ht. cbn [negb].
  unfold bindM, query. rewrite (sql_ID_Some _ _ HID).
  change (Insert_Records y dy sid db)
    with (Ok (next_id recID (recTable db)), snd (Insert_Records y dy sid db)).
  cbn iota. rewrite recTable_after_insert, Select_by_id.
  rewrite filter_id_new by reflexivity.
  cbn [first_row recDTG]. unfold Record_init. now rewrite Ht.
Qed.



Lemma RecordMeasurement_Ok (sensor : value) (sid : Z) (y dy : R)
    (db : Database) (rec : RecordObj) (db' : Database) :
  attr_ID sensor = Ok (Some sid) ->
  RecordMeasurement sensor y dy db = (Ok rec, db') ->
  rec = mkRecord y dy sensor (Some (next_id recID (recTable db)))
          (Some (clock db))
  /\ recTable db'
     = (recTable db
        ++ [mkRecRow y dy (clock db) (next_id recID (recTable db)) sid])%list.
Proof.
  intros HID HR.
  rewrite (RecordMeasurement_run db sensor sid y dy HID) in HR.
  pose proof (f_equal fst HR) as H1. pose proof (f_equal snd HR) as H2.
  cbn [fst] in H1. injection H1 as <-.
  change (snd (Insert_Records y dy sid db) = db') in H2. subst db'.
  split; [reflexivity | apply recTable_after_insert].
Qed.

(** X12. A measurement that was recorded is returned by [GetRecords] for
    every time range that holds the clock of the server at the moment of
    recording, and the set counts one record more than the range held
    before. *)
Theorem recorded_measurement_is_returned :
  forall (sensor : value) (sid : Z) (y dy : R) (db : Database)
         (rec : RecordObj) (db' : Database) (t0 t1 : Z),
    attr_ID sensor = Ok (Some sid) ->
    RecordMeasurement sensor y dy db = (Ok rec, db') ->
    t0 <= clock db <= t1 ->
    exists (s : RecordSet.t) (ms : list (Z * R * R)),
      GetRecords db' sensor t0 t1 = Ok (Some s)
      /\ measurements_of (RecordSet.times s) (RecordSet.data s)
           (RecordSet.error s) = Some ms
      /\ In (clock db, y, dy) ms
      /\ RecordSet.N s
         = Z.of_nat
             (List.length (filter (in_range sid t0 t1) (recTable db))) + 1.
Proof.
  intros sensor sid y dy db rec db' t0 t1 HID HR Hclock.
  destruct (RecordMeasurement_Ok _ _ _ _ _ _ _ HID HR) as [_ Htable].
  rewrite (GetRecords_run _ sensor sid t0 t1 HID), Htable.
  set (row := mkRecRow y dy (clock db) (next_id recID (recTable db)) sid).
  assert (Hrow : in_range sid t0 t1 row = true).
  { unfold in_range. cbn [row rec_senID recDTG]. rewrite Z.eqb_refl.
    cbn [andb]. apply andb_true_intro. split; apply Z.leb_le; lia. }
  rewrite filter_app. cbn [filter]. rewrite Hrow.
  set (old := filter (in_range sid t0 t1) (recTable db)).
  pose proof (order_by_perm recDTG (old ++ [row])) as P.
  destruct (order_by recDTG (old ++ [row])) as [| r rows] eqn:E.
  { apply Permutation_nil in P. now destruct old. }
  eexists. exists (map measurement (r :: rows)).
  split; [reflexivity |].
  cbn [RecordSet.times RecordSet.data RecordSet.error RecordSet.N].
  repeat split.
  - apply measurements_of_rows.
  - change (clock db, y, dy) with (measurement row). apply in_map.
    apply (Permutation_in row (Permutation_sym P)).
    apply in_or_app. right. now left.
  - rewrite (Permutation_length P), length_app. cbn [List.length]. lia.
Qed.

Lemma recorded_measurement_is_returned_witness :
  let db' := snd (RecordMeasurement lab_sensor 42 1 sample_db) in
  exists (s : RecordSet.t) (ms : list (Z * R * R)),
    GetRecords db' lab_sensor (-5) 5 = Ok (Some s)
    /\ measurements_of (RecordSet.times s) (RecordSet.data s)
         (RecordSet.error s) = Some ms
    /\ In (clock sample_db, 42%R, 1%R) ms
    /\ RecordSet.N s
       = Z.of_nat
           (List.length
              (filter (in_range 1 (-5) 5) (recTable sample_db))) + 1.
Proof.
  intros db'.
  apply (recorded_measurement_is_returned lab_sensor 1 42 1 sample_db
           (mkRecord 42 1 lab_sensor (Some 5) (Some 0)) db' (-5) 5).
  - reflexivity.
  - reflexivity.
  - simpl. lia.
Defined.

(** The first row of a list sorted by a key has the least key. *)
Lemma sorted_head_least {Row : Type} (key : Row -> Z) (x : Row)
    (l : list Row) :
  Sorted (fun a b => key a <= key b) (x :: l) ->
  forall y, In y l -> key x <= key y.
Proof.
  intros HS.
  assert (HT : Relations_1.Transitive (fun a b : Row => key a <= key b)).
  { intros a b c. lia. }
  pose proof (Sorted_extends HT HS) as HF.
  intros y Hy. revert y Hy. now apply Forall_forall.
Qed.

Lemma Select_latest (table : list RecRow) (sid : Z) :
  Select table (Some (fun r => - recDTG r))
    [(int_col rec_senID, EQ (SqlInt sid))]
  = order_by (fun r => - recDTG r)
      (filter (fun r => rec_senID r =? sid) table).
Proof.
  unfold Select. f_equal. apply filter_ext. intros r.
  unfold where_, holds, int_col. simpl.
  now rewrite sql_eq_int, andb_true_r.
Qed.

(** What [GetMostRecentRecord] returns for a sensor that carries a key. *)
Lemma GetMostRecentRecord_run (db : Database) (sensor : value) (sid : Z) :
  attr_ID sensor = Ok (Some sid) ->
  GetMostRecentRecord db sensor
  = match order_by (fun r => - recDTG r)
            (filter (fun r => rec_senID r =? sid) (recTable db)) with
    | [] => Ok None
    | row :: _ =>
        Ok (Some (mkRecord (recData row) (recError row) sensor
                    (Some (recID row)) (Some (recDTG row))))
    end.
Proof.
  intros HID. pose proof (attr_ID_truthy _ _ HID) as Ht.
  unfold GetMostRecentRecord, sql_ID. rewrite Ht, HID. cbn [bind].
  rewrite Select_latest.
  destruct (order_by _ _) as [| row rows]; cbn [firstn]; trivial.
  unfold Record_init. now rewrite Ht.
Qed.

(** X13. [GetMostRecentRecord] refuses a sensor that is [None] with a
    [DatabaseException].  For a sensor with a key it returns [None] exactly
    when the table in use holds no measurement of the sensor, and otherwise
    the record of a measurement of the sensor whose timestamp no other
    measurement of the sensor exceeds. *)
Theorem most_recent_record_is_latest :
  forall (db : Database) (sensor : value) (sid : Z),
    is_DatabaseException (GetMostRecentRecord db VNone)
    /\ (attr_ID sensor = Ok (Some sid) ->
        match GetMostRecentRecord db sensor with
        | Ok None =>
            forall r, In r (recTable db) -> rec_senID r <> sid
        | Ok (Some rec) =>
            exists row,
              In row (recTable db) /\ rec_senID row = sid
              /\ rec = mkRecord (recData row) (recError row) sensor
                         (Some (recID row)) (Some (recDTG row))
              /\ latest_of sid (recTable db) (recDTG row)
        | Raise _ => False
        end).
Proof.
  intros db sensor sid. split.
  { unfold GetMostRecentRecord. cbn. red. eauto. }
  intros HID. rewrite (GetMostRecentRecord_run db sensor sid HID).
  set (mine := filter (fun r => rec_senID r =? sid) (recTable db)).
  pose proof (order_by_perm (fun r => - recDTG r) mine) as P.
  pose proof (order_by_sorted (fun r => - recDTG r) mine) as S.
  destruct (order_by _ mine) as [| row rows].
  - apply Permutation_nil in P.
    intros r Hr Hs.
    assert (Hm : In r mine).
    { apply filter_In. split; trivial. now apply Z.eqb_eq. }
    rewrite P in Hm. destruct Hm.
  - assert (Hrow : In row mine).
    { apply (Permutation_in row P). now left. }
    apply filter_In in Hrow. destruct Hrow as [Hin Hs].
    apply Z.eqb_eq in Hs.
    exists row. repeat split; trivial.
    + now exists row.
    + intros r Hr Hrs.
      assert (Hm : In r mine).
      { apply filter_In. split; trivial. now apply Z.eqb_eq. }
      apply (Permutation_in r (Permutation_sym P)) in Hm.
      destruct Hm as [<- | Hm]; [lia |].
      pose proof (sorted_head_least _ _ _ S r Hm) as Hk.
      cbv beta in Hk. lia.
Qed.

Lemma most_recent_record_is_latest_witness :
  match GetMostRecentRecord sample_db lab_sensor with
  | Ok None =>
      forall r, In r (recTable sample_db) -> rec_senID r <> 1
  | Ok (Some rec) =>
      exists row,
        In row (recTable sample_db) /\ rec_senID row = 1
        /\ rec = mkRecord (recData row) (recError row) lab_sensor
                   (Some (recID row)) (Some (recDTG row))
        /\ latest_of 1 (recTable sample_db) (recDTG row)
  | Raise _ => False
  end.
Proof.
  apply (most_recent_record_is_latest sample_db lab_sensor 1). reflexivity.
Defined.



(** X15. A time range whose end lies before its start is passed to the
    store as it is and selects nothing: [GetRecords] returns [None]. *)
Theorem reversed_range_returns_None :
  forall (db : Database) (sensor : value) (sid t0 t1 : Z),
    attr_ID sensor = Ok (Some sid) -> t1 < t0 ->
    GetRecords db sensor t0 t1 = Ok None.
Proof.
  intros db sensor sid t0 t1 HID Hrev.
  rewrite (GetRecords_run db sensor sid t0 t1 HID).
  rewrite (filter_none (in_range sid t0 t1) (recTable db)); [reflexivity |].
  intros r _. unfold in_range.
  destruct (Z.leb_spec t0 (recDTG r)), (Z.leb_spec (recDTG r) t1);
    rewrite ?andb_false_r; trivial; lia.
Qed.

Lemma reversed_range_returns_None_witness :
  GetRecords sample_db lab_sensor 250 100 = Ok None.
Proof.
  apply (reversed_range_returns_None sample_db lab_sensor 1 250 100).
  - reflexivity.
  - lia.
Defined.

(** ** Labels *)

Lemma GetUnitsLabel_cases (s : RecordSet.t) :
  (exists short long desc i,
     attr_units (RecordSet.sensor s) = Ok (VUnits short long desc i)
     /\ GetUnitsLabel s = Ok (desc ++ " (" ++ short ++ ")"))
  \/ ((forall short long desc i,
         attr_units (RecordSet.sensor s) <> Ok (VUnits short long desc i))
      /\ GetUnitsLabel s = Raise AttributeError).
Proof.
  unfold GetUnitsLabel.
  destruct (attr_units (RecordSet.sensor s)) as [u | e] eqn:E; cbn [bind].
  - destruct u; cbn [attr_desc attr_short bind];
      try (right; split; [intros; discriminate | reflexivity]).
    left. do 4 eexists. split; reflexivity.
  - right. split; [intros; discriminate |].
    destruct (RecordSet.sensor s); try discriminate;
      now injection E as <-.
Qed.

(** The sensor of the record set that [GetRecords] returns is the sensor
    that was asked about. *)
Lemma GetRecords_sensor (db : Database) (sensor : value) (t0 t1 : Z)
    (s : RecordSet.t) :
  GetRecords db sensor t0 t1 = Ok (Some s) -> RecordSet.sensor s = sensor.
Proof.
  intros HR.
  destruct (attr_ID sensor) as [[sid |] |] eqn:HID.
  - rewrite (GetRecords_run db sensor sid t0 t1 HID) in HR.
    destruct (order_by _ _); [discriminate |]. now injection HR as <-.
  - unfold GetRecords, sql_ID in HR. rewrite HID in HR.
    destruct (truthy sensor); discriminate.
  - unfold GetRecords, sql_ID in HR. rewrite HID in HR.
    destruct (truthy sensor); discriminate.
Qed.

(** X16. The units label of a record set is the description and the short
    form of the units of its sensor when those units are a [Units] object,
    and an attribute error in every other case.  A record set that
    [GetRecords] returns for a sensor that a lookup returned always has its
    label. *)
Theorem units_label_needs_Units :
  (forall (s : RecordSet.t) (label : string),
     GetUnitsLabel s = Ok label <->
     exists short long desc i,
       attr_units (RecordSet.sensor s) = Ok (VUnits short long desc i)
       /\ label = desc ++ " (" ++ short ++ ")")
  /\ (forall (s : RecordSet.t) (e : exn),
        GetUnitsLabel s = Raise e -> e = AttributeError)
  /\ (forall (db : Database) (name : string) (ID : option Z)
             (sensor : value) (t0 t1 : Z) (s : RecordSet.t),
        Get Sensor db name ID = Ok sensor -> truthy sensor = true ->
        GetRecords db sensor t0 t1 = Ok (Some s) ->
        exists label, GetUnitsLabel s = Ok label).
Proof.
  split; [| split].
  - intros s label.
    destruct (GetUnitsLabel_cases s)
      as [(sh & lo & de & i & Hu & HL) | (Hno & HL)]; rewrite HL; split.
    + intros [= <-]. now exists sh, lo, de, i.
    + intros (sh' & lo' & de' & i' & Hu' & ->).
      rewrite Hu in Hu'. now injection Hu' as <- <- <- <-.
    + discriminate.
    + intros (sh' & lo' & de' & i' & Hu' & _). now destruct (Hno _ _ _ _ Hu').
  - intros s e.
    destruct (GetUnitsLabel_cases s)
      as [(sh & lo & de & i & Hu & HL) | (Hno & HL)]; rewrite HL;
      [discriminate | now intros [= <-]].
  - intros db name ID sensor t0 t1 s HG Ht HR. cbn [Get] in HG.
    destruct (well_formed_Sensor _ _ _ _ HG Ht) as [Hwf Hc].
    rewrite <- (GetRecords_sensor _ _ _ _ _ HR) in Hwf, Hc.
    unfold GetUnitsLabel.
    destruct (RecordSet.sensor s); try discriminate.
    cbn [well_formed] in Hwf.
    repeat (apply andb_prop in Hwf; destruct Hwf as [Hwf ?]).
    match goal with
    | |- context [VSensor _ _ _ ?u _ _] => destruct u; try discriminate
    end.
    cbn. eauto.
Qed.

Lemma units_label_needs_Units_witness :
  GetUnitsLabel three_set = Ok "pressure (Pa)"
  /\ AttributeError = AttributeError
  /\ exists label,
       GetUnitsLabel
         (RecordSet.mk [Some 100; Some 200] [10; 20]%R [1; 1]%R lab_sensor 2)
       = Ok label.
Proof.
  destruct units_label_needs_Units as (H1 & H2 & H3).
  split; [| split].
  - apply H1. exists "Pa", "pascal", "pressure", (Some 1).
    split; reflexivity.
  - apply (H2 (RecordSet.mk [] [] []
                 (VSensor "p1" "pressure" lab_device lab_owner (Some 1)
                    (Some 0)) 0)).
    reflexivity.
  - apply (H3 sample_db "lab.edm.vac.gauge.p1" None lab_sensor 100 250);
      reflexivity.
Defined.

Example units_label_of_sample :
  GetUnitsLabel three_set = Ok "pressure (Pa)".
Proof. reflexivity. Qed.

Example units_label_of_forged_sensor :
  GetUnitsLabel
    (RecordSet.mk [] [] []
       (VSensor "p1" "pressure" lab_device lab_owner (Some 1) (Some 0)) 0)
  = Raise AttributeError.
Proof. reflexivity. Qed.

(** ** Dots in names *)





(** X18. Joining with [Sep] and splitting at dots are inverse to each
    other: a name split and joined again is the name, and components
    joined and split again are the components, provided there is at least
    one and none holds a dot.  The components of a split never hold a
    dot. *)
Theorem dotted_name_round_trip :
  (forall s : string, Sep (split_dot s) = s)
  /\ (forall s : string,
        split_dot s <> [] /\ Forall (fun w => no_dot w = true) (split_dot s))
  /\ (forall l : list string,
        l <> [] -> Forall (fun w => no_dot w = true) l ->
        split_dot (Sep l) = l)
  /\ (forall (l : list string) (x : string),
        l <> [] -> Sep (l ++ [x]) = Sep l ++ "." ++ x).
Proof.
  split; [exact Sep_split_dot |].
  split; [intros s; split; [apply split_dot_not_nil | apply split_dot_no_dot] |].
  split; [exact split_dot_Sep | exact Sep_snoc].
Qed.

Lemma dotted_name_round_trip_witness :
  split_dot (Sep ["lab"; "edm"; "vac"]) = ["lab"; "edm"; "vac"]
  /\ Sep (["lab"; "edm"] ++ ["vac"]) = Sep ["lab"; "edm"] ++ "." ++ "vac".
Proof.
  destruct dotted_name_round_trip as (_ & _ & H1 & H2).
  split.
  - apply H1; [discriminate | repeat constructor].
  - apply H2. discriminate.
Defined.

(** ** Creations and measurements do not meet *)

Lemma ran_recTable (a : creation) (db : Database) (r : res value)
    (db' : Database) :
  ran a db r db' -> recTable db' = recTable db.
Proof.
  destruct a; cbn [ran].
  - now intros (_ & _ & ->).
  - now intros (? & ? & ? & ? & _ & _ & _ & _ & _ & ->).
  - now intros (? & ? & ? & ? & ? & _ & _ & _ & _ & _ & ->).
  - now intros (_ & _ & ->).
  - now intros (? & ? & ? & ? & ? & ? & ? & _ & _ & _ & _ & _ & _ & _ & ->).
  - now intros (_ & _ & ->).
  - now intros
      (? & ? & ? & ? & ? & ? & ? & ? & _ & _ & _ & _ & _ & _ & _ & ->).
Qed.

(** X19. No creation, successful or failed, changes what the measurement
    queries return. *)
Theorem creation_keeps_measurements :
  forall (a : creation) (db : Database) (r : res value) (db' : Database)
         (sensor : value) (t0 t1 : Z),
    Create a db = (r, db') ->
    GetRecords db' sensor t0 t1 = GetRecords db sensor t0 t1
    /\ GetMostRecentRecord db' sensor = GetMostRecentRecord db sensor.
Proof.
  intros a db r db' sensor t0 t1 HC.
  assert (H : recTable db' = recTable db).
  { destruct (Create_inv _ _ _ _ HC) as [(-> & _) | Hran]; trivial.
    now apply (ran_recTable a db r db'). }
  unfold GetRecords, GetMostRecentRecord. now rewrite H.
Qed.

Lemma creation_keeps_measurements_witness :
  let db' := snd (Create (NewOwner "shop" "the workshop") sample_db) in
  GetRecords db' lab_sensor 100 250 = GetRecords sample_db lab_sensor 100 250
  /\ GetMostRecentRecord db' lab_sensor
     = GetMostRecentRecord sample_db lab_sensor.
Proof.
  intros db'.
  apply (creation_keeps_measurements (NewOwner "shop" "the workshop")
           sample_db
           (Ok (VOwner "shop" "the workshop" (Some 2) (Some 0))) db').
  reflexivity.
Defined.
